(** * dea.py: the mapping-driven data-entry engine, embedded and verified

    The development follows [src/dea.py]: Python values and exceptions,
    [FieldRule] and [load_mapping], [coerce_truthy], [validate_row],
    [set_field] over an abstract browser driver, and the row loop of [main]
    with its outcome log. *)

From Stdlib Require Import ZArith Ascii String List Bool Lia.
From Stdlib Require Import Numbers.DecimalString Numbers.DecimalZ.
From stdpp Require Import base option list strings gmap.

Local Open Scope string_scope.
Local Open Scope Z_scope.
Local Open Scope list_scope.

(** ** Python values, exceptions and results *)

Module Py.

(** The cell and configuration values the program handles.  [PyNaN] is the
    float not-a-number that pandas uses for a missing cell; other floats are
    outside this model. *)
Inductive pyval :=
  | PyNone
  | PyNaN
  | PyStr (s : string)
  | PyInt (z : Z)
  | PyBool (b : bool).

(** The exception classes that can reach the handlers of [main]. *)
Inductive exn :=
  | KeyError (key : string)
  | ValueError (msg : string)
  | TypeError (msg : string)
  | ReError (msg : string)
  | TimeoutException (msg : string)
  | NoSuchElementException (msg : string)
  | WebDriverException (cls msg : string).

Inductive res (A : Type) :=
  | Ok (a : A)
  | Raise (e : exn).
Arguments Ok {A} a.
Arguments Raise {A} e.

Definition res_bind {A B} (r : res A) (k : A -> res B) : res B :=
  match r with
  | Ok a => k a
  | Raise e => Raise e
  end.

(** *** str methods on ASCII text *)

Definition quote1 : ascii := ascii_of_nat 39.
Definition quote2 : ascii := ascii_of_nat 34.
Definition backslash : ascii := ascii_of_nat 92.

(** [str.isspace] on one ASCII character. *)
Definition is_space (c : ascii) : bool :=
  let n := nat_of_ascii c in
  ((9 <=? n)%nat && (n <=? 13)%nat) || ((28 <=? n)%nat && (n <=? 32)%nat).

Fixpoint lstrip (s : string) : string :=
  match s with
  | String c s' => if is_space c then lstrip s' else s
  | EmptyString => EmptyString
  end.

(** Drops the trailing white space: a character is kept when it is not a
    space or when something is kept after it. *)
Fixpoint rstrip (s : string) : string :=
  match s with
  | String c s' =>
      match rstrip s' with
      | EmptyString => if is_space c then EmptyString else String c EmptyString
      | r => String c r
      end
  | EmptyString => EmptyString
  end.

Definition strip (s : string) : string := rstrip (lstrip s).

Definition lower_char (c : ascii) : ascii :=
  let n := nat_of_ascii c in
  if ((65 <=? n)%nat && (n <=? 90)%nat) then ascii_of_nat (n + 32) else c.

Fixpoint lower (s : string) : string :=
  match s with
  | String c s' => String (lower_char c) (lower s')
  | EmptyString => EmptyString
  end.

Fixpoint contains_char (c : ascii) (s : string) : bool :=
  match s with
  | String d s' => Ascii.eqb c d || contains_char c s'
  | EmptyString => false
  end.

Fixpoint all_chars (p : ascii -> bool) (s : string) : bool :=
  match s with
  | String c s' => p c && all_chars p s'
  | EmptyString => true
  end.

(** *** str() and repr() *)

Definition str_int (z : Z) : string := NilEmpty.string_of_int (Z.to_int z).

Definition str (v : pyval) : string :=
  match v with
  | PyNone => "None"
  | PyNaN => "nan"
  | PyStr s => s
  | PyInt z => str_int z
  | PyBool true => "True"
  | PyBool false => "False"
  end.

Definition hex_digit (n : nat) : ascii :=
  if (n <? 10)%nat then ascii_of_nat (48 + n) else ascii_of_nat (87 + n).

Definition repr_char (q : ascii) (c : ascii) : string :=
  let n := nat_of_ascii c in
  if Ascii.eqb c backslash then String backslash (String backslash EmptyString)
  else if Ascii.eqb c q then String backslash (String q EmptyString)
  else if (n =? 9)%nat then String backslash "t"
  else if (n =? 10)%nat then String backslash "n"
  else if (n =? 13)%nat then String backslash "r"
  else if ((n <? 32)%nat || (n =? 127)%nat) then
    String backslash
      (String "x" (String (hex_digit (n / 16)) (String (hex_digit (n mod 16)) EmptyString)))
  else String c EmptyString.

Fixpoint repr_body (q : ascii) (s : string) : string :=
  match s with
  | String c s' => repr_char q c +:+ repr_body q s'
  | EmptyString => EmptyString
  end.

(** repr of a str: single quotes, unless the text has a single quote and no
    double quote. *)
Definition repr_str (s : string) : string :=
  let q := if contains_char quote1 s && negb (contains_char quote2 s)
           then quote2 else quote1 in
  String q (repr_body q s +:+ String q EmptyString).

Definition repr (v : pyval) : string :=
  match v with
  | PyStr s => repr_str s
  | _ => str v
  end.

Fixpoint join (sep : string) (l : list string) : string :=
  match l with
  | [] => EmptyString
  | [x] => x
  | x :: l' => x +:+ sep +:+ join sep l'
  end.

Definition repr_list (l : list pyval) : string :=
  "[" +:+ join ", " (map repr l) +:+ "]".

(** *** int() of a str: surrounding white space, a sign, decimal digits with
    single underscores between them. *)

Definition is_digit (c : ascii) : bool :=
  let n := nat_of_ascii c in (48 <=? n)%nat && (n <=? 57)%nat.

Fixpoint int_body (s : string) (after_digit : bool) : option string :=
  match s with
  | EmptyString => if after_digit then Some EmptyString else None
  | String c s' =>
      if is_digit c then String c <$> int_body s' true
      else if Ascii.eqb c "_" then
        if after_digit then int_body s' false else None
      else None
  end.

Definition int_literal_error (s : string) : exn :=
  ValueError ("invalid literal for int() with base 10: " +:+ repr_str s).

Definition int_of_digits (s : string) (body : string) : res Z :=
  match int_body body false with
  | Some ds =>
      match NilEmpty.uint_of_string ds with
      | Some u => Ok (Z.of_uint u)
      | None => Raise (int_literal_error s)
      end
  | None => Raise (int_literal_error s)
  end.

Definition int (s : string) : res Z :=
  match strip s with
  | String c body =>
      if Ascii.eqb c "-" then res_bind (int_of_digits s body) (fun z => Ok (- z)%Z)
      else if Ascii.eqb c "+" then int_of_digits s body
      else int_of_digits s (String c body)
  | EmptyString => Raise (int_literal_error s)
  end.

(** *** Truth value of an object, as [if x:] takes it *)

Definition truthy (v : pyval) : bool :=
  match v with
  | PyNone => false
  | PyNaN => true
  | PyStr s => negb (String.eqb s EmptyString)
  | PyInt z => negb (z =? 0)%Z
  | PyBool b => b
  end.

(** *** The text and class name of an exception *)

Definition exn_str (e : exn) : string :=
  match e with
  | KeyError k => repr_str k
  | ValueError m | TypeError m | ReError m => m
  | TimeoutException m | NoSuchElementException m => m
  | WebDriverException _ m => m
  end.

Definition exn_class_name (e : exn) : string :=
  match e with
  | KeyError _ => "KeyError"
  | ValueError _ => "ValueError"
  | TypeError _ => "TypeError"
  | ReError _ => "error"
  | TimeoutException _ => "TimeoutException"
  | NoSuchElementException _ => "NoSuchElementException"
  | WebDriverException cls _ => cls
  end.

(** The classes below selenium's WebDriverException. *)
Definition is_WebDriverException (e : exn) : bool :=
  match e with
  | TimeoutException _ | NoSuchElementException _ | WebDriverException _ _ => true
  | _ => false
  end.

End Py.

Import Py.

#[global] Instance pyval_eq_dec : EqDecision pyval.
Proof. solve_decision. Defined.

(** ** The rule model: [FieldRule] and [load_mapping] *)

(** A validator entry of the mapping: a dict read with [vd.get("type")],
    [vd["pattern"]], [vd["values"]] and [vd.get("message", ...)].  A field is
    [None] when the key is absent; [vd_message = Some None] is a message key
    holding null.  The record covers entries that are mappings whose
    [pattern], when present, is a string and whose [values], when present, is
    a list; an entry of another shape (a scalar entry, [values: null]) is
    outside it. *)
Record Validator := {
  vd_type : option string;
  vd_pattern : option string;
  vd_values : option (list pyval);
  vd_message : option (option string)
}.

Module FieldRule.
(** The dataclass, with the defaults of its declaration. *)
Record t := mk {
  selector : string;
  type : string;
  required : bool;
  default : option string;
  validators : option (list Validator)
}.

(** The keyword arguments [**v] of one entry of the mapping's [fields]:
    the five known keys when present, and the names of any other key. *)
Record kwargs := {
  kw_selector : option string;
  kw_type : option string;
  kw_required : option bool;
  kw_default : option string;
  kw_validators : option (list Validator);
  kw_unexpected : list string
}.

(** The generated [__init__]: an unexpected keyword or a missing
    [selector] is a TypeError; nothing else is checked, and a missing
    [type] takes the declared default ["input"]. *)
Definition init (v : kwargs) : res t :=
  match kw_unexpected v with
  | k :: _ =>
      Raise (TypeError
        ("FieldRule.__init__() got an unexpected keyword argument " +:+ repr_str k))
  | [] =>
      match kw_selector v with
      | None =>
          Raise (TypeError
            "FieldRule.__init__() missing 1 required positional argument: 'selector'")
      | Some sel =>
          Ok {| selector := sel;
                type := match kw_type v with Some ty => ty | None => "input" end;
                required := match kw_required v with Some r => r | None => false end;
                default := kw_default v;
                validators := kw_validators v |}
      end
  end.
End FieldRule.

(** The success check of the mapping, a dict read with [sc.get] and
    [sc["selector"]]: [None] is an absent key. *)
Record SuccessCheck := {
  sc_selector : option pyval;
  sc_text_contains : option pyval
}.

(** The mapping without its fields; [None] is an absent key, and
    [success_check = Some None] is a key holding null. *)
Record MappingHead := {
  url : option string;
  browser : option string;
  headless : option bool;
  submit_selector : option string;
  success_check : option (option SuccessCheck)
}.

Record Mapping := {
  head : MappingHead;
  fields : list (string * FieldRule.t)
}.

Fixpoint load_fields (raw : list (string * FieldRule.kwargs))
  : res (list (string * FieldRule.t)) :=
  match raw with
  | [] => Ok []
  | (k, v) :: raw' =>
      res_bind (FieldRule.init v) (fun rule =>
      res_bind (load_fields raw') (fun rest => Ok ((k, rule) :: rest)))
  end.

(** [load_mapping], after [yaml.safe_load]: [cfg["fields"]] is replaced by
    the constructed rules, in declared order. *)
Definition load_mapping (h : MappingHead)
    (raw_fields : option (list (string * FieldRule.kwargs))) : res Mapping :=
  match raw_fields with
  | None => Raise (KeyError "fields")
  | Some raw =>
      res_bind (load_fields raw) (fun fs => Ok {| head := h; fields := fs |})
  end.

(** ** [coerce_truthy] *)

Definition truthy_words : list string := ["1"; "true"; "yes"; "y"; "on"; "t"].

Definition str_in (s : string) (l : list string) : bool :=
  existsb (String.eqb s) l.

Definition coerce_truthy (v : pyval) : bool :=
  str_in (lower (strip (str v))) truthy_words.

(** ** [validate_row] *)

(** A row as [row.to_dict()] gives it. *)
Abbreviation Row := (gmap string pyval).

(** How a loop body ends: it falls through, or it executes [return v]. *)
Inductive flow :=
  | Continue
  | Return (v : option string).

Section Validation.

(** [re.fullmatch pattern text]: [Ok true] for a match object, [Ok false]
    for None, [Raise] for a pattern that does not compile. *)
Variable re_fullmatch : string -> string -> res bool.

Definition is_none (v : pyval) : bool :=
  match v with PyNone => true | _ => false end.

(** [isinstance(val, float) and pd.isna(val)] *)
Definition is_float_nan (v : pyval) : bool :=
  match v with PyNaN => true | _ => false end.

Definition type_is (vd : Validator) (name : string) : bool :=
  match vd_type vd with
  | Some ty => String.eqb ty name
  | None => false
  end.

(** [vd.get("message", dflt)] *)
Definition message_or (vd : Validator) (dflt : string) : option string :=
  match vd_message vd with
  | Some m => m
  | None => Some dflt
  end.

(** Lines 42-44: the regex branch of one validator. *)
Definition check_regex (col : string) (val : pyval) (vd : Validator) : res flow :=
  if type_is vd "regex" && negb (is_none val) && negb (String.eqb (str val) "") then
    match vd_pattern vd with
    | None => Raise (KeyError "pattern")
    | Some pattern =>
        res_bind (re_fullmatch pattern (str val)) (fun matched =>
        if matched then Ok Continue
        else Ok (Return (message_or vd ("Invalid value for " +:+ col))))
    end
  else Ok Continue.

(** Lines 45-47: the enum branch of one validator. *)
Definition check_enum (col : string) (val : pyval) (vd : Validator) : res flow :=
  if type_is vd "enum" && negb (is_none val) then
    match vd_values vd with
    | None => Raise (KeyError "values")
    | Some values =>
        if str_in (str val) (map str values) then Ok Continue
        else Ok (Return (message_or vd
                   (col +:+ " must be one of " +:+ repr_list values)))
    end
  else Ok Continue.

(** The body of the loop over [rule.validators]. *)
Definition check_validator (col : string) (val : pyval) (vd : Validator) : res flow :=
  res_bind (check_regex col val vd) (fun f =>
  match f with
  | Return v => Ok (Return v)
  | Continue => check_enum col val vd
  end).

Fixpoint run_validators (col : string) (val : pyval) (vds : list Validator)
  : res flow :=
  match vds with
  | [] => Ok Continue
  | vd :: vds' =>
      res_bind (check_validator col val vd) (fun f =>
      match f with
      | Return v => Ok (Return v)
      | Continue => run_validators col val vds'
      end)
  end.

(** [row.get(col, None)] *)
Definition row_get (row : Row) (col : string) : pyval :=
  match row !! col with
  | Some v => v
  | None => PyNone
  end.

(** The condition of line 38. *)
Definition missing_required (val : pyval) (rule : FieldRule.t) : bool :=
  (is_none val || is_float_nan val || String.eqb (str val) "")
  && FieldRule.required rule
  && match FieldRule.default rule with None => true | Some _ => false end.

(** The body of the loop over [fields.items()]. *)
Definition check_field (row : Row) (col : string) (rule : FieldRule.t) : res flow :=
  let val := row_get row col in
  if missing_required val rule then
    Ok (Return (Some ("Missing required field: " +:+ col)))
  else
    match FieldRule.validators rule with
    | Some (vd :: vds) => run_validators col val (vd :: vds)
    | Some [] | None => Ok Continue
    end.

Fixpoint validate_fields (row : Row) (fs : list (string * FieldRule.t)) : res flow :=
  match fs with
  | [] => Ok Continue
  | (col, rule) :: fs' =>
      res_bind (check_field row col rule) (fun f =>
      match f with
      | Return v => Ok (Return v)
      | Continue => validate_fields row fs'
      end)
  end.

Definition validate_row (row : Row) (fs : list (string * FieldRule.t))
  : res (option string) :=
  res_bind (validate_fields row fs) (fun f =>
  match f with
  | Return v => Ok v
  | Continue => Ok None
  end).

End Validation.

(** ** The browser driver and [set_field] *)

(** The calls the program makes on the driver, in the order it makes them. *)
Inductive call (E : Type) :=
  | CGet (u : string)
  | CFindElement (sel : string)
  | CClear (el : E)
  | CSendKeys (el : E) (text : string)
  | CSelectByValue (el : E) (value : string)
  | CIsSelected (el : E)
  | CClick (el : E)
  | CWaitVisible (sel : pyval)
  | CWaitText (sel text : pyval)
  | CQuit.
Arguments CGet {E} u.
Arguments CFindElement {E} sel.
Arguments CClear {E} el.
Arguments CSendKeys {E} el text.
Arguments CSelectByValue {E} el value.
Arguments CIsSelected {E} el.
Arguments CClick {E} el.
Arguments CWaitVisible {E} sel.
Arguments CWaitText {E} sel text.
Arguments CQuit {E}.

(** The selenium surface the program uses, over a browser state [B] and
    element handles [E].  Each operation returns its result or the exception
    it raises, and the browser state after it.  The waits are those of
    [WebDriverWait(driver, timeout).until] on the two expected conditions. *)
Record Driver (B E : Type) := {
  drv_get : string -> B -> res unit * B;
  drv_find_element : string -> B -> res E * B;
  drv_clear : E -> B -> res unit * B;
  drv_send_keys : E -> string -> B -> res unit * B;
  drv_select_by_value : E -> string -> B -> res unit * B;
  drv_is_selected : E -> B -> res bool * B;
  drv_click : E -> B -> res unit * B;
  drv_wait_visible : Z -> pyval -> B -> res unit * B;
  drv_wait_text : Z -> pyval -> pyval -> B -> res unit * B;
  drv_quit : B -> B
}.
Arguments drv_get {B E} _ _ _.
Arguments drv_find_element {B E} _ _ _.
Arguments drv_clear {B E} _ _ _.
Arguments drv_send_keys {B E} _ _ _ _.
Arguments drv_select_by_value {B E} _ _ _ _.
Arguments drv_is_selected {B E} _ _ _.
Arguments drv_click {B E} _ _ _.
Arguments drv_wait_visible {B E} _ _ _ _.
Arguments drv_wait_text {B E} _ _ _ _ _.
Arguments drv_quit {B E} _ _.

(** A browser session: the browser's state and the calls made so far. *)
Record session (B E : Type) := {
  page : B;
  calls : list (call E)
}.
Arguments page {B E} _.
Arguments calls {B E} _.

(** Code that drives the browser: it threads the session and may raise. *)
Definition M (B E A : Type) : Type := session B E -> res A * session B E.

Definition ret {B E A} (a : A) : M B E A := fun s => (Ok a, s).

Definition raise {B E A} (e : exn) : M B E A := fun s => (Raise e, s).

Definition bind {B E A A'} (m : M B E A) (k : A -> M B E A') : M B E A' :=
  fun s =>
    match m s with
    | (Ok a, s') => k a s'
    | (Raise e, s') => (Raise e, s')
    end.

Notation "'let*' x ':=' m 'in' k" := (bind m (fun x => k))
  (at level 10, x pattern, m at level 100, k at level 200).

(** One driver call: it is recorded, then run on the browser state. *)
Definition invoke {B E A} (c : call E) (op : B -> res A * B) : M B E A :=
  fun s =>
    let '(r, b) := op (page s) in
    (r, {| page := b; calls := calls s ++ [c] |}).

Section Setter.

Context {B E : Type}.
Variable drv : Driver B E.

Definition get (u : string) : M B E unit :=
  invoke (CGet u) (drv_get drv u).
Definition find_element (sel : string) : M B E E :=
  invoke (CFindElement sel) (drv_find_element drv sel).
Definition clear (el : E) : M B E unit :=
  invoke (CClear el) (drv_clear drv el).
Definition send_keys (el : E) (text : string) : M B E unit :=
  invoke (CSendKeys el text) (drv_send_keys drv el text).
Definition select_by_value (el : E) (value : string) : M B E unit :=
  invoke (CSelectByValue el value) (drv_select_by_value drv el value).
Definition is_selected (el : E) : M B E bool :=
  invoke (CIsSelected el) (drv_is_selected drv el).
Definition click (el : E) : M B E unit :=
  invoke (CClick el) (drv_click drv el).
Definition wait_visible (timeout : Z) (sel : pyval) : M B E unit :=
  invoke (CWaitVisible sel) (drv_wait_visible drv timeout sel).
Definition wait_text (timeout : Z) (sel text : pyval) : M B E unit :=
  invoke (CWaitText sel text) (drv_wait_text drv timeout sel text).

Definition set_field (rule : FieldRule.t) (value : pyval) : M B E unit :=
  let* elem := find_element (FieldRule.selector rule) in
  let t := FieldRule.type rule in
  if String.eqb t "input" then
    let* _ := clear elem in
    let value := if is_none value then PyStr "" else value in
    send_keys elem (str value)
  else if String.eqb t "select" then
    select_by_value elem (str value)
  else if String.eqb t "checkbox" then
    let should_check := coerce_truthy value in
    let* selected := is_selected elem in
    if negb (Bool.eqb selected should_check) then click elem else ret tt
  else
    raise (ValueError ("Unsupported field type: " +:+ t)).

End Setter.

(** ** The outcome log *)

(** A line of the CSV log, as its fields. *)
Abbreviation csv_row := (list string).

Definition header : csv_row := ["row"; "status"; "message"].

(** [writer.writerow({"row": .., "status": .., "message": ..})] under
    [fieldnames=["row","status","message"]]. *)
Definition record_row (row_no : Z) (status message : string) : csv_row :=
  [str_int row_no; status; message].

(** The log opened in append mode with the default buffering: rows written
    and not yet handed to the file are [pending]. *)
Record out_file := {
  disk : list csv_row;
  pending : list csv_row;
  closed : bool
}.

(** [args.out.open("a", ...)]: the file is created when it does not exist. *)
Definition open_append (existing : option (list csv_row)) : out_file :=
  {| disk := match existing with Some rows => rows | None => [] end;
     pending := [];
     closed := false |}.

Definition flush (f : out_file) : out_file :=
  {| disk := disk f ++ pending f; pending := []; closed := closed f |}.

Definition close (f : out_file) : out_file :=
  {| disk := disk f ++ pending f; pending := []; closed := true |}.

(** Everything written to the stream so far, in the file or still in the
    buffer. *)
Definition contents (f : out_file) : list csv_row := disk f ++ pending f.

Section Log.

(** Whether the stream's buffer, holding these rows, is full and is
    written out by the runtime on its own. *)
Variable buffer_full : list csv_row -> bool.

(** A write never flushes by itself: the row joins the buffer, which is
    handed to the file only when the runtime finds it full. *)
Definition write_row (r : csv_row) (f : out_file) : out_file :=
  let f' := {| disk := disk f; pending := pending f ++ [r]; closed := closed f |} in
  if buffer_full (pending f') then flush f' else f'.

End Log.

(** *** Reading the prior log: [csv.DictReader] *)

(** The dict of one data row: [dict(zip(fieldnames, row))], then the
    [restval] None under the field names the row is too short for. *)
Fixpoint dict_of_row (names : list string) (row : csv_row)
    (acc : gmap string (option string)) : gmap string (option string) :=
  match names with
  | [] => acc
  | n :: names' =>
      match row with
      | x :: row' => dict_of_row names' row' (<[n := Some x]> acc)
      | [] => dict_of_row names' [] (<[n := None]> acc)
      end
  end.

Definition is_empty_row (r : csv_row) : bool :=
  match r with [] => true | _ => false end.

(** The dicts [DictReader] yields: the first row gives the field names,
    blank rows after it are skipped. *)
Definition dict_reader (rows : list csv_row) : list (gmap string (option string)) :=
  match rows with
  | [] => []
  | names :: data =>
      map (fun r => dict_of_row names r ∅)
          (List.filter (fun r => negb (is_empty_row r)) data)
  end.

(** [r.get("status") == "success"] *)
Definition status_is_success (r : gmap string (option string)) : bool :=
  match r !! "status" with
  | Some (Some status) => String.eqb status "success"
  | Some None | None => false
  end.

(** Lines 106-108, the loop over the prior records. *)
Fixpoint collect_processed (rs : list (gmap string (option string)))
    (processed : gset Z) : res (gset Z) :=
  match rs with
  | [] => Ok processed
  | r :: rs' =>
      if status_is_success r then
        match r !! "row" with
        | None => Raise (KeyError "row")
        | Some None =>
            Raise (TypeError
              "int() argument must be a string, a bytes-like object or a real number, not 'NoneType'")
        | Some (Some s) =>
            res_bind (Py.int s) (fun n => collect_processed rs' ({[ n ]} ∪ processed))
        end
      else collect_processed rs' processed
  end.

(** Lines 102-108. *)
Definition load_processed (resume : bool) (existing : option (list csv_row))
  : res (gset Z) :=
  match existing with
  | Some rows => if resume then collect_processed (dict_reader rows) ∅ else Ok ∅
  | None => Ok ∅
  end.

(** ** Command-line arguments and row selection *)

Module Args.
Record t := mk {
  start : Z;
  end_ : option Z;
  filter : option (Row -> bool);
  headless : bool;
  dry_run : bool;
  resume : bool;
  timeout : Z
}.
End Args.

(** A Python slice [l[lo:hi]] with unit step. *)
Definition slice_index (n i : Z) : Z :=
  if i <? 0 then Z.max (i + n) 0 else Z.min i n.

Definition py_slice {A} (lo : Z) (hi : option Z) (l : list A) : list A :=
  let n := Z.of_nat (length l) in
  let lo' := slice_index n lo in
  let hi' := match hi with Some h => slice_index n h | None => n end in
  take (Z.to_nat (hi' - lo')) (drop (Z.to_nat lo') l).

(** Lines 98-100: the row range, then the filter. *)
Definition select_rows (args : Args.t) (df : list Row) : list Row :=
  let df :=
    match Args.end_ args with
    | Some e => if e =? 0 then py_slice (Args.start args - 1) None df
                else py_slice (Args.start args - 1) (Some e) df
    | None => py_slice (Args.start args - 1) None df
    end in
  match Args.filter args with
  | Some q => List.filter q df
  | None => df
  end.

(** [df.reset_index(drop=True).iterrows()]: the selected rows with their
    positions, counted again from 0. *)
Fixpoint iterrows_from (idx : Z) (df : list Row) : list (Z * Row) :=
  match df with
  | [] => []
  | row :: df' => (idx, row) :: iterrows_from (idx + 1) df'
  end.

Definition iterrows (df : list Row) : list (Z * Row) := iterrows_from 0 df.

(** Line 128. *)
Definition row_no_of (args : Args.t) (idx : Z) : Z := Args.start args + idx.

(** The row numbers a run gives to the rows of a table, in order. *)
Definition row_numbers (args : Args.t) (table : list Row) : list (Z * Row) :=
  map (fun '(idx, row) => (row_no_of args idx, row)) (iterrows (select_rows args table)).

(** ** The run loop of [main] *)

Record run (B E : Type) := {
  sess : session B E;
  out : out_file;
  successes : Z;
  fails : Z
}.
Arguments sess {B E} _.
Arguments out {B E} _.
Arguments successes {B E} _.
Arguments fails {B E} _.

(** What a call of [main] leaves: the exit code or the exception that
    escaped, the log file when it was opened, and the run state when the
    browser was started. *)
Record result (B E : Type) := {
  exit : res Z;
  log : option out_file;
  final : option (run B E)
}.
Arguments exit {B E} _.
Arguments log {B E} _.
Arguments final {B E} _.

Section Main.

Context {B E : Type}.
Variable drv : Driver B E.
Variable re_fullmatch : string -> string -> res bool.
Variable buffer_full : list csv_row -> bool.
(** [launch_browser browser headless] *)
Variable launch_browser : string -> bool -> res B.

Definition writerow (row_no : Z) (status message : string) (st : run B E) : run B E :=
  {| sess := sess st;
     out := write_row buffer_full (record_row row_no status message) (out st);
     successes := successes st;
     fails := fails st |}.

Definition count_success (st : run B E) : run B E :=
  {| sess := sess st; out := out st;
     successes := successes st + 1; fails := fails st |}.

Definition count_fail (st : run B E) : run B E :=
  {| sess := sess st; out := out st;
     successes := successes st; fails := fails st + 1 |}.

Definition with_sess (s : session B E) (st : run B E) : run B E :=
  {| sess := s; out := out st; successes := successes st; fails := fails st |}.

(** Line 133: a NaN cell becomes None. *)
Definition to_row_dict (row : Row) : Row :=
  (fun v => if is_float_nan v then PyNone else v) <$> row.

(** [val == ""] *)
Definition is_empty_str (v : pyval) : bool :=
  match v with PyStr s => String.eqb s "" | _ => false end.

(** Lines 145-147. *)
Definition fill_value (row_dict : Row) (col : string) (rule : FieldRule.t) : pyval :=
  let val := row_get row_dict col in
  match FieldRule.default rule with
  | Some d => if is_none val || is_empty_str val then PyStr d else val
  | None => val
  end.

(** Lines 144-148. *)
Fixpoint fill_fields (row_dict : Row) (fs : list (string * FieldRule.t)) : M B E unit :=
  match fs with
  | [] => ret tt
  | (col, rule) :: fs' =>
      let* _ := set_field drv rule (fill_value row_dict col rule) in
      fill_fields row_dict fs'
  end.

(** [d[key]] on a dict that may lack the key. *)
Definition subscript {A} (key : string) (o : option A) : M B E A :=
  match o with
  | Some a => ret a
  | None => raise (KeyError key)
  end.

(** Lines 156-159. *)
Definition await_success (timeout : Z) (sc : SuccessCheck) : M B E unit :=
  let* _ :=
    match sc_selector sc with
    | Some sel => if truthy sel then wait_visible drv timeout sel else ret tt
    | None => ret tt
    end in
  match sc_text_contains sc with
  | Some text =>
      if truthy text then
        let* sel := subscript "selector" (sc_selector sc) in
        wait_text drv timeout sel text
      else ret tt
  | None => ret tt
  end.

(** Line 152. *)
Definition click_submit (h : MappingHead) : M B E unit :=
  let* sel := subscript "submit_selector" (submit_selector h) in
  let* button := find_element drv sel in
  click drv button.

(** Lines 154-159. *)
Definition check_success (args : Args.t) (h : MappingHead) : M B E unit :=
  match success_check h with
  | Some (Some sc) => await_success (Args.timeout args) sc
  | Some None | None => ret tt
  end.

(** Lines 142-148: open the form and fill it. *)
Definition fill_form (cfg : Mapping) (row_dict : Row) : M B E unit :=
  let* u := subscript "url" (url (head cfg)) in
  let* _ := get drv u in
  fill_fields row_dict (fields cfg).

(** Lines 142-159, the body of the inner [try]. *)
Definition fill_and_submit (args : Args.t) (cfg : Mapping) (row_dict : Row) : M B E unit :=
  let* _ := fill_form cfg row_dict in
  if Args.dry_run args then ret tt
  else
    let* _ := click_submit (head cfg) in
    check_success args (head cfg).

(** The first [except] clause catches these two classes. *)
Definition is_form_error (e : exn) : bool :=
  match e with
  | TimeoutException _ | NoSuchElementException _ => true
  | _ => false
  end.

(** [if err:] *)
Definition err_truthy (err : option string) : bool :=
  match err with
  | Some m => negb (String.eqb m "")
  | None => false
  end.

(** The body of the loop of line 127.  An exception of [validate_row] is
    outside the inner [try] and leaves the loop. *)
Definition process_row (args : Args.t) (cfg : Mapping) (processed : gset Z)
    (idx : Z) (row : Row) (st : run B E) : res unit * run B E :=
  let row_no := row_no_of args idx in
  if decide (row_no ∈ processed) then
    (Ok tt, writerow row_no "success" "skipped (resume)" st)
  else
    let row_dict := to_row_dict row in
    match validate_row re_fullmatch row_dict (fields cfg) with
    | Raise e => (Raise e, st)
    | Ok err =>
        if err_truthy err then
          (Ok tt, count_fail
             (writerow row_no "failed" (match err with Some m => m | None => "" end) st))
        else
          match fill_and_submit args cfg row_dict (sess st) with
          | (Ok _, s) =>
              (Ok tt, count_success (writerow row_no "success" "" (with_sess s st)))
          | (Raise e, s) =>
              if is_form_error e then
                (Ok tt, count_fail
                   (writerow row_no "failed" ("form error: " +:+ exn_class_name e)
                      (with_sess s st)))
              else
                (Ok tt, count_fail
                   (writerow row_no "failed" (exn_str e) (with_sess s st)))
          end
    end.

Fixpoint run_loop (args : Args.t) (cfg : Mapping) (processed : gset Z)
    (rows : list (Z * Row)) (st : run B E) : res unit * run B E :=
  match rows with
  | [] => (Ok tt, st)
  | (idx, row) :: rows' =>
      match process_row args cfg processed idx row st with
      | (Ok _, st') => run_loop args cfg processed rows' st'
      | (Raise e, st') => (Raise e, st')
      end
  end.

(** The [finally] of line 170: close the log, quit the driver. *)
Definition finally (st : run B E) : run B E :=
  {| sess := {| page := drv_quit drv (page (sess st));
                calls := calls (sess st) ++ [CQuit] |};
     out := close (out st);
     successes := successes st;
     fails := fails st |}.

(** Lines 109-114. *)
Definition prepare_writer (existing : option (list csv_row)) : out_file :=
  let write_header := match existing with Some _ => false | None => true end in
  let out_f := open_append existing in
  if write_header then write_row buffer_full header out_f else out_f.

Definition main (args : Args.t) (h : MappingHead)
    (raw_fields : option (list (string * FieldRule.kwargs)))
    (table : list Row) (existing : option (list csv_row)) : result B E :=
  match load_mapping h raw_fields with
  | Raise e => {| exit := Raise e; log := None; final := None |}
  | Ok cfg =>
      let df := select_rows args table in
      match load_processed (Args.resume args) existing with
      | Raise e => {| exit := Raise e; log := None; final := None |}
      | Ok processed =>
          let out_f := prepare_writer existing in
          let name := match browser h with Some b => b | None => "chrome" end in
          let hl := Args.headless args
                    || match headless h with Some b => b | None => false end in
          match launch_browser name hl with
          | Raise e =>
              if is_WebDriverException e
              then {| exit := Ok 2; log := Some out_f; final := None |}
              else {| exit := Raise e; log := Some out_f; final := None |}
          | Ok b =>
              let st := {| sess := {| page := b; calls := [] |}; out := out_f;
                           successes := 0; fails := 0 |} in
              match run_loop args cfg processed (iterrows df) st with
              | (Ok _, st') =>
                  let st'' := finally st' in
                  {| exit := Ok 0; log := Some (out st''); final := Some st'' |}
              | (Raise e, st') =>
                  let st'' := finally st' in
                  {| exit := Raise e; log := Some (out st''); final := Some st'' |}
              end
          end
      end
  end.

End Main.

(** ** Instances used to run the model *)

(** A page of check boxes: the browser state says which selectors are
    ticked; every selector is found, a click toggles, the other operations
    succeed and change nothing. *)
Definition tick_page : Driver (string -> bool) string := {|
  drv_get := fun _ b => (Ok tt, b);
  drv_find_element := fun sel b => (Ok sel, b);
  drv_clear := fun _ b => (Ok tt, b);
  drv_send_keys := fun _ _ b => (Ok tt, b);
  drv_select_by_value := fun _ _ b => (Ok tt, b);
  drv_is_selected := fun el b => (Ok (b el), b);
  drv_click := fun el b =>
    (Ok tt, fun x => if String.eqb x el then negb (b x) else b x);
  drv_wait_visible := fun _ _ b => (Ok tt, b);
  drv_wait_text := fun _ _ _ b => (Ok tt, b);
  drv_quit := fun b => b
|}.

(** [re.fullmatch] on patterns without metacharacters: such a pattern
    matches exactly itself. *)
Definition literal_fullmatch (pattern text : string) : res bool :=
  Ok (String.eqb pattern text).

(** A buffer that never fills during the run. *)
Definition roomy_buffer (rows : list csv_row) : bool := false.



Definition chrome_ok (name : string) (hl : bool) : res (string -> bool) :=
  Ok (fun _ => false).

Definition plain_args : Args.t :=
  {| Args.start := 1; Args.end_ := None; Args.filter := None;
     Args.headless := false; Args.dry_run := false; Args.resume := false;
     Args.timeout := 15 |}.

Definition text_rule (sel : string) : FieldRule.t :=
  {| FieldRule.selector := sel; FieldRule.type := "input";
     FieldRule.required := false; FieldRule.default := None;
     FieldRule.validators := None |}.

(** Example data: a mapping with an email and a country field, and rows. *)

Definition enum_country : Validator :=
  {| vd_type := Some "enum"; vd_pattern := None;
     vd_values := Some [PyStr "US"; PyStr "CA"]; vd_message := None |}.

Definition regex_only (pattern : string) : Validator :=
  {| vd_type := Some "regex"; vd_pattern := Some pattern;
     vd_values := None; vd_message := None |}.

Definition country_rule (vds : list Validator) : FieldRule.t :=
  {| FieldRule.selector := "#country"; FieldRule.type := "select";
     FieldRule.required := false; FieldRule.default := None;
     FieldRule.validators := Some vds |}.

Definition email_rule : FieldRule.t :=
  {| FieldRule.selector := "#email"; FieldRule.type := "input";
     FieldRule.required := false; FieldRule.default := None;
     FieldRule.validators := Some [regex_only "ann@example"] |}.

Definition name_rule : FieldRule.t :=
  {| FieldRule.selector := "#name"; FieldRule.type := "input";
     FieldRule.required := true; FieldRule.default := None;
     FieldRule.validators := None |}.

Definition radio_kwargs : FieldRule.kwargs :=
  {| FieldRule.kw_selector := Some "#plan"; FieldRule.kw_type := Some "radio";
     FieldRule.kw_required := None; FieldRule.kw_default := None;
     FieldRule.kw_validators := None; FieldRule.kw_unexpected := [] |}.

Definition known_types : list string := ["input"; "select"; "checkbox"].

Definition row_of (cells : list (string * pyval)) : Row := list_to_map cells.

Definition row_ann : Row := row_of [("name", PyStr "Ann")].
Definition row_bob : Row := row_of [("name", PyStr "Bob")].
Definition row_cid : Row := row_of [("name", PyStr "Cid")].

Definition not_ann (r : Row) : bool :=
  negb (bool_decide (r !! "name" = Some (PyStr "Ann"))).

Definition simple_head : MappingHead :=
  {| url := Some "http://form.test/"; browser := None; headless := None;
     submit_selector := Some "#go"; success_check := None |}.

Definition fresh_run : run (string -> bool) string :=
  {| sess := {| page := fun _ => false; calls := [] |};
     out := open_append None; successes := 0; fails := 0 |}.

Definition two_field_mapping : Mapping :=
  {| head := simple_head;
     fields := [("email", email_rule); ("name", name_rule)] |}.


(** A row with a well-formed email and an empty name. *)
Definition row_no_name : Row := row_of [("email", PyStr "ann@example"); ("name", PyNaN)].

Definition agree_rule : FieldRule.t :=
  {| FieldRule.selector := "#agree"; FieldRule.type := "checkbox";
     FieldRule.required := false; FieldRule.default := None;
     FieldRule.validators := None |}.

Definition blank_session : session (string -> bool) string :=
  {| page := fun _ => false; calls := [] |}.

(** A mapping head whose success check has a text but no selector. *)
Definition text_only_head : MappingHead :=
  {| url := Some "http://form.test/"; browser := None; headless := None;
     submit_selector := Some "#go";
     success_check :=
       Some (Some {| sc_selector := None;
                     sc_text_contains := Some (PyStr "Thank you") |}) |}.

Definition name_kwargs : FieldRule.kwargs :=
  {| FieldRule.kw_selector := Some "#name"; FieldRule.kw_type := None;
     FieldRule.kw_required := Some true; FieldRule.kw_default := None;
     FieldRule.kw_validators := None; FieldRule.kw_unexpected := [] |}.

Definition name_only_mapping (h : MappingHead) : Mapping :=
  {| head := h; fields := [("name", text_rule "#name")] |}.

Definition text_kwargs (sel : string) : FieldRule.kwargs :=
  {| FieldRule.kw_selector := Some sel; FieldRule.kw_type := None;
     FieldRule.kw_required := None; FieldRule.kw_default := None;
     FieldRule.kw_validators := None; FieldRule.kw_unexpected := [] |}.

(** The log a run leaves when it starts without a log file: the header, then
    one line per record. *)
Definition log_of (recs : list (Z * string * string)) : list csv_row :=
  header :: map (fun '(n, status, message) => record_row n status message) recs.

Definition resume_args : Args.t :=
  {| Args.start := 7; Args.end_ := None; Args.filter := None;
     Args.headless := false; Args.dry_run := false; Args.resume := true;
     Args.timeout := 15 |}.

Definition prior_records : list (Z * string * string) :=
  [(7, "success", ""); (8, "failed", "form error: TimeoutException")].

(** The dict [DictReader] yields for a record of this program. *)
Definition record_dict (r : Z * string * string) : gmap string (option string) :=
  let '(n, status, message) := r in
  dict_of_row header (record_row n status message) ∅.

(** The run state of a first run, after the log is prepared and the browser
    is started. *)
Definition first_run_state (buffer_full : list csv_row -> bool)
  : run (string -> bool) string :=
  {| sess := blank_session; out := prepare_writer buffer_full None;
     successes := 0; fails := 0 |}.

(** A record of the log, with some row number, status and message. *)
Definition is_record (r : csv_row) : Prop :=
  exists n status message, r = record_row n status message.

(** A mapping whose second field has a regex validator without a pattern:
    validating a non-empty code raises KeyError. *)
Definition code_rule : FieldRule.t :=
  {| FieldRule.selector := "#code"; FieldRule.type := "input";
     FieldRule.required := false; FieldRule.default := None;
     FieldRule.validators :=
       Some [{| vd_type := Some "regex"; vd_pattern := None;
                vd_values := None; vd_message := None |}] |}.

Definition broken_mapping : Mapping :=
  {| head := simple_head;
     fields := [("name", text_rule "#name"); ("code", code_rule)] |}.

Definition row_with_code : Row := row_of [("name", PyStr "Bob"); ("code", PyStr "x1")].

Definition two_rows : list (Z * Row) := iterrows [row_ann; row_with_code].

Definition rerun_args : Args.t :=
  {| Args.start := 1; Args.end_ := None; Args.filter := None;
     Args.headless := false; Args.dry_run := false; Args.resume := true;
     Args.timeout := 15 |}.

(** A second run over two rows, on top of the log of a prior run. *)
Definition rerun : result (string -> bool) string :=
  main tick_page literal_fullmatch roomy_buffer chrome_ok rerun_args simple_head
    (Some [("name", text_kwargs "#name")]) [row_ann; row_bob]
    (Some (log_of prior_records)).

Definition rerun_log : out_file :=
  {| disk := log_of prior_records
               ++ [record_row 1 "success" ""; record_row 2 "success" ""];
     pending := [];
     closed := true |}.

Definition filter_args (resume : bool) : Args.t :=
  {| Args.start := 1; Args.end_ := None; Args.filter := Some not_ann;
     Args.headless := false; Args.dry_run := false; Args.resume := resume;
     Args.timeout := 15 |}.

(** A resumed run with the filter, after a run that logged source row 1
    (Ann) as success. *)
Definition filtered_rerun : result (string -> bool) string :=
  main tick_page literal_fullmatch roomy_buffer chrome_ok (filter_args true) simple_head
    (Some [("name", text_kwargs "#name")]) [row_ann; row_bob; row_cid]
    (Some (log_of [(1, "success", "")])).

(** The rows of a run that the resume check of line 129 skips. *)
Definition skipped_rows (args : Args.t) (processed : gset Z)
    (rows : list (Z * Row)) : list (Z * Row) :=
  List.filter (fun ir => bool_decide (row_no_of args (fst ir) ∈ processed)) rows.

(** The page of check boxes, on which no element ever becomes visible. *)
Definition never_visible : Driver (string -> bool) string := {|
  drv_get := drv_get tick_page;
  drv_find_element := drv_find_element tick_page;
  drv_clear := drv_clear tick_page;
  drv_send_keys := drv_send_keys tick_page;
  drv_select_by_value := drv_select_by_value tick_page;
  drv_is_selected := drv_is_selected tick_page;
  drv_click := drv_click tick_page;
  drv_wait_visible := fun _ _ b => (Raise (TimeoutException "Message: "), b);
  drv_wait_text := drv_wait_text tick_page;
  drv_quit := drv_quit tick_page
|}.

(** The page of check boxes without the element "#name". *)
Definition no_name_page : Driver (string -> bool) string := {|
  drv_get := drv_get tick_page;
  drv_find_element := fun sel b =>
    if String.eqb sel "#name"
    then (Raise (NoSuchElementException "Message: no such element"), b)
    else (Ok sel, b);
  drv_clear := drv_clear tick_page;
  drv_send_keys := drv_send_keys tick_page;
  drv_select_by_value := drv_select_by_value tick_page;
  drv_is_selected := drv_is_selected tick_page;
  drv_click := drv_click tick_page;
  drv_wait_visible := drv_wait_visible tick_page;
  drv_wait_text := drv_wait_text tick_page;
  drv_quit := drv_quit tick_page
|}.

Definition message_head : MappingHead :=
  {| url := Some "http://form.test/"; browser := None; headless := None;
     submit_selector := Some "#go";
     success_check :=
       Some (Some {| sc_selector := Some (PyStr "#msg");
                     sc_text_contains := Some (PyStr "Thank you") |}) |}.

Definition no_url_head : MappingHead :=
  {| url := None; browser := None; headless := None;
     submit_selector := Some "#go"; success_check := None |}.

Definition dry_args : Args.t :=
  {| Args.start := 1; Args.end_ := None; Args.filter := None;
     Args.headless := false; Args.dry_run := true; Args.resume := false;
     Args.timeout := 15 |}.

Definition agree_then_name : list (string * FieldRule.t) :=
  [("agree", agree_rule); ("name", text_rule "#name"); ("email", email_rule)].

(** A machine without a browser driver: the launch raises. *)
Definition no_driver (name : string) (hl : bool) : res (string -> bool) :=
  Raise (WebDriverException "WebDriverException" "Message: unable to obtain driver").

(** A mapping entry written with the key [kind], which the dataclass does
    not declare. *)
Definition kind_kwargs : FieldRule.kwargs :=
  {| FieldRule.kw_selector := Some "#plan"; FieldRule.kw_type := None;
     FieldRule.kw_required := None; FieldRule.kw_default := None;
     FieldRule.kw_validators := None; FieldRule.kw_unexpected := ["kind"] |}.

(** The line a record of the log is written as. *)
Definition record_line (r : Z * string * string) : csv_row :=
  let '(n, status, message) := r in record_row n status message.

(** A first run over the rows Ann and Bob. *)
Definition first_run : result (string -> bool) string :=
  main tick_page literal_fullmatch roomy_buffer chrome_ok plain_args simple_head
    (Some [("name", text_kwargs "#name")]) [row_ann; row_bob] None.

(** ** [launch_browser] (lines 66-78) *)

Inductive browser_kind :=
  | Firefox
  | Chrome.

(** What [launch_browser] asks selenium for: the driver class and the
    arguments added to its options. *)
Record launch_request := {
  driver_class : browser_kind;
  arguments : list string
}.

(** [launch_browser], over the constructor [start] of the selenium drivers. *)
Definition launch_browser {B : Type} (start : launch_request -> res B)
    (browser : string) (headless : bool) : res B :=
  if String.eqb (lower browser) "firefox" then
    start {| driver_class := Firefox;
             arguments := if headless then ["-headless"] else [] |}
  else
    start {| driver_class := Chrome;
             arguments := (if headless then ["--headless=new"] else [])
                            ++ ["--no-sandbox"; "--disable-dev-shm-usage"] |}.

(** A machine where only Chrome can be started. *)
Definition chrome_only (req : launch_request) : res (string -> bool) :=
  match driver_class req with
  | Chrome => Ok (fun _ => false)
  | Firefox =>
      Raise (WebDriverException "WebDriverException" "Message: unable to obtain driver")
  end.

Definition edge_head : MappingHead :=
  {| url := Some "http://form.test/"; browser := Some "Edge"; headless := Some true;
     submit_selector := Some "#go"; success_check := None |}.




(** A mapping head whose success check has an empty text and no selector. *)
Definition empty_text_head : MappingHead :=
  {| url := Some "http://form.test/"; browser := None; headless := None;
     submit_selector := Some "#go";
     success_check :=
       Some (Some {| sc_selector := None; sc_text_contains := Some (PyStr "") |}) |}.



(** ** Row numbering (C1) *)

Section RowNumberFacts.

Lemma iterrows_from_lookup (df : list Row) k idx row :
  (idx, row) ∈ iterrows_from k df ->
  exists j : nat, idx = k + Z.of_nat j /\ df !! j = Some row.
Proof.
  revert k. induction df as [|r df IH]; intros k; simpl.
  - intros H. inversion H.
  - intros [Heq | Hin]%elem_of_cons.
    + injection Heq as -> ->. exists 0%nat. split; [lia | reflexivity].
    + destruct (IH _ Hin) as (j & -> & Hj). exists (S j). split; [lia | exact Hj].
Qed.

Lemma py_slice_lookup {A} lo hi (l : list A) (j : nat) x :
  0 <= lo ->
  py_slice lo hi l !! j = Some x ->
  l !! (Z.to_nat lo + j)%nat = Some x.
Proof.
  intros Hlo. unfold py_slice.
  intros [Hd _]%lookup_take_Some. rewrite lookup_drop in Hd.
  apply lookup_lt_Some in Hd as Hlt.
  unfold slice_index in Hd, Hlt.
  destruct (Z.ltb_spec lo 0); [lia|].
  replace (Z.to_nat (Z.min lo (Z.of_nat (length l)))) with (Z.to_nat lo) in Hd by lia.
  exact Hd.
Qed.

(** Without a filter and with [--start] at least 1, the number given to a
    row is its 1-based position in the source table. *)
Lemma slicing_keeps_source_position args (table : list Row) n row :
  Args.filter args = None ->
  1 <= Args.start args ->
  (n, row) ∈ row_numbers args table ->
  1 <= n /\ table !! Z.to_nat (n - 1) = Some row.
Proof.
  intros Hf Hstart Hin. unfold row_numbers in Hin.
  apply list_elem_of_fmap in Hin as ([idx row'] & Heq & Hin).
  injection Heq as -> ->.
  apply iterrows_from_lookup in Hin as (j & -> & Hj).
  unfold select_rows in Hj. rewrite Hf in Hj.
  assert (Hl : table !! (Z.to_nat (Args.start args - 1) + j)%nat = Some row').
  { destruct (Args.end_ args) as [e|]; [destruct (e =? 0)|];
      eapply py_slice_lookup; try exact Hj; lia. }
  unfold row_no_of. split; [lia|].
  replace (Z.to_nat (Args.start args + (0 + Z.of_nat j) - 1))
    with (Z.to_nat (Args.start args - 1) + j)%nat by lia.
  exact Hl.
Qed.

End RowNumberFacts.

(** C1, at a failing input: with rows Ann, Bob, Cid, [--start 1] and a
    filter that drops Ann, the surviving rows Bob and Cid are numbered 1 and
    2, while their positions in the original source, which the unfiltered run
    gives them, are 2 and 3.  The row number is the position after the
    filter, so it is not stable under row-filtering; a resumed run on top of
    a log where source row 1 (Ann) succeeded skips Bob as row 1 and sends
    only Cid to the form. *)
Theorem filter_shifts_row_numbers :
  row_numbers plain_args [row_ann; row_bob; row_cid]
    = [(1, row_ann); (2, row_bob); (3, row_cid)]
  /\ row_numbers (filter_args false) [row_ann; row_bob; row_cid]
     = [(1, row_bob); (2, row_cid)]
  /\ (disk <$> log filtered_rerun)
     = Some (log_of [(1, "success", ""); (1, "success", "skipped (resume)");
                     (2, "success", "")])
  /\ (calls <$> (sess <$> final filtered_rerun))
     = Some [CGet "http://form.test/"; CFindElement "#name"; CClear "#name";
             CSendKeys "#name" "Cid"; CFindElement "#go"; CClick "#go"; CQuit].
Proof. repeat split; vm_compute; reflexivity. Qed.

(** ** Validation (C2, C7, C4) *)

Section ValidationFacts.

Variable re_fullmatch : string -> string -> res bool.






End ValidationFacts.

(** C2, at a failing input: a cell holding the empty string, in a field that
    is not required, is run through the enum validator and rejected with the
    validator's message, although the regex validator of line 42 skips the
    same cell. *)
Theorem enum_rejects_empty_string (re_fullmatch : string -> string -> res bool) :
  validate_row re_fullmatch (row_of [("country", PyStr "")])
    [("country", country_rule [enum_country])]
    = Ok (Some "country must be one of ['US', 'CA']")
  /\ validate_row re_fullmatch (row_of [("country", PyStr "")])
       [("country", country_rule [regex_only "US"])]
     = Ok None.
Proof. split; vm_compute; reflexivity. Qed.







(** ** The row loop: validation failures (C4) *)

Section RowFacts.

Context {B E : Type}.
Variable drv : Driver B E.
Variable re_fullmatch : string -> string -> res bool.
Variable buffer_full : list csv_row -> bool.


Lemma process_row_skips args cfg (processed : gset Z) idx row (st : run B E) :
  row_no_of args idx ∈ processed ->
  process_row drv re_fullmatch buffer_full args cfg processed idx row st
    = (Ok tt, writerow buffer_full (row_no_of args idx) "success" "skipped (resume)" st).
Proof.
  intros Hin. unfold process_row.
  destruct (decide (row_no_of args idx ∈ processed)); [reflexivity | contradiction].
Qed.


End RowFacts.




(** ** Field kinds (C3) and the checkbox setter (C8) *)

(** C3, as stated, fails: a rule of the unknown kind "radio" is constructed
    without any error, and the whole mapping loads. *)
Lemma unknown_kind_is_constructed :
  ~ In "radio" known_types
  /\ FieldRule.init radio_kwargs
     = Ok {| FieldRule.selector := "#plan"; FieldRule.type := "radio";
             FieldRule.required := false; FieldRule.default := None;
             FieldRule.validators := None |}
  /\ exists cfg, load_mapping simple_head (Some [("plan", radio_kwargs)]) = Ok cfg.
Proof.
  split.
  - simpl. intros [H | [H | [H | []]]]; discriminate.
  - split; [reflexivity|]. eexists. reflexivity.
Qed.

Lemma not_known_type t :
  ~ In t known_types ->
  String.eqb t "input" = false /\ String.eqb t "select" = false
  /\ String.eqb t "checkbox" = false.
Proof.
  intros Hnot. repeat split; apply String.eqb_neq; intros ->; apply Hnot; simpl; auto.
Qed.

(** C3, amended: construction checks only the shape of the keyword
    arguments.  With a selector and no unexpected key it succeeds for every
    kind, keeps the kind as given and takes "input" (the text kind) when the
    kind is omitted.  A kind outside input, select, checkbox is rejected only
    when [set_field] is applied to the rule: after the element is found it
    raises ValueError "Unsupported field type: <kind>". *)
Theorem field_kind_is_checked_at_use {B E : Type} (drv : Driver B E)
    (v : FieldRule.kwargs) (sel : string) (value : pyval)
    (s : session B E) (el : E) (b : B) :
  FieldRule.kw_unexpected v = [] ->
  FieldRule.kw_selector v = Some sel ->
  drv_find_element drv sel (page s) = (Ok el, b) ->
  exists rule,
    FieldRule.init v = Ok rule
    /\ FieldRule.type rule
       = match FieldRule.kw_type v with Some ty => ty | None => "input" end
    /\ (~ In (FieldRule.type rule) known_types ->
        set_field drv rule value s
        = (Raise (ValueError ("Unsupported field type: " +:+ FieldRule.type rule)),
           {| page := b; calls := calls s ++ [CFindElement sel] |})).
Proof.
  intros Hkeys Hsel Hfind. unfold FieldRule.init. rewrite Hkeys, Hsel.
  eexists. split; [reflexivity|]. split; [reflexivity|].
  simpl. intros Hnot. apply not_known_type in Hnot as (H1 & H2 & H3).
  unfold set_field, bind, find_element, invoke. simpl.
  rewrite Hfind, H1, H2, H3. reflexivity.
Qed.

(** The radio rule is built from its keyword arguments and fails in
    [set_field]; the rule without a kind becomes an input rule. *)
Lemma field_kind_is_checked_at_use_witness :
  (exists rule,
     FieldRule.init radio_kwargs = Ok rule
     /\ set_field tick_page rule (PyStr "gold") blank_session
        = (Raise (ValueError "Unsupported field type: radio"),
           {| page := page blank_session; calls := [CFindElement "#plan"] |}))
  /\ (exists rule,
        FieldRule.init name_kwargs = Ok rule /\ FieldRule.type rule = "input").
Proof.
  split.
  - destruct (field_kind_is_checked_at_use tick_page radio_kwargs "#plan"
                (PyStr "gold") blank_session "#plan" (page blank_session))
      as (rule & Hinit & Hty & Huse); [reflexivity | reflexivity | reflexivity |].
    exists rule. split; [exact Hinit|].
    rewrite Huse.
    + rewrite Hty. reflexivity.
    + rewrite Hty. simpl. intros [H | [H | [H | []]]]; discriminate.
  - destruct (field_kind_is_checked_at_use tick_page name_kwargs "#name"
                PyNone blank_session "#name" (page blank_session))
      as (rule & Hinit & Hty & _); [reflexivity | reflexivity | reflexivity |].
    exists rule. split; [exact Hinit | exact Hty].
Defined.

Section CheckboxFacts.

Context {B E : Type}.
Variable drv : Driver B E.

(** What [set_field] does on a checkbox rule, given what the driver
    answers. *)
Lemma set_field_checkbox rule value (s : session B E) el b1 c b2 :
  FieldRule.type rule = "checkbox" ->
  drv_find_element drv (FieldRule.selector rule) (page s) = (Ok el, b1) ->
  drv_is_selected drv el b1 = (Ok c, b2) ->
  set_field drv rule value s
  = if negb (Bool.eqb c (coerce_truthy value))
    then click drv el
           {| page := b2;
              calls := (calls s ++ [CFindElement (FieldRule.selector rule)])
                         ++ [CIsSelected el] |}
    else (Ok tt,
          {| page := b2;
             calls := (calls s ++ [CFindElement (FieldRule.selector rule)])
                        ++ [CIsSelected el] |}).
Proof.
  intros Hty Hfind Hsel.
  unfold set_field, bind, find_element, is_selected, invoke.
  rewrite Hfind, Hty. simpl. rewrite Hsel.
  destruct (negb (Bool.eqb c (coerce_truthy value))); reflexivity.
Qed.

End CheckboxFacts.

(** C8: on a driver where, on the states [I] of the page, the checkbox is
    found, [is_selected] reads its state [checked] and [click] toggles it,
    [set_field] on a checkbox rule clicks exactly when the checked state
    differs from [coerce_truthy value], leaves the box in that state, and a
    second call with a value of the same truth makes no click and leaves the
    page as it is. *)
Theorem checkbox_set_is_idempotent {B E : Type} (drv : Driver B E)
    (I : B -> Prop) (checked : B -> bool)
    (rule : FieldRule.t) (el : E) (v v' : pyval) (s : session B E) :
  FieldRule.type rule = "checkbox" ->
  (forall b, I b -> drv_find_element drv (FieldRule.selector rule) b = (Ok el, b)) ->
  (forall b, I b -> drv_is_selected drv el b = (Ok (checked b), b)) ->
  (forall b, I b ->
     exists b', drv_click drv el b = (Ok tt, b') /\ I b'
                /\ checked b' = negb (checked b)) ->
  I (page s) ->
  coerce_truthy v' = coerce_truthy v ->
  exists s1 s2,
    set_field drv rule v s = (Ok tt, s1)
    /\ calls s1
       = calls s ++ [CFindElement (FieldRule.selector rule); CIsSelected el]
           ++ (if Bool.eqb (checked (page s)) (coerce_truthy v) then []
               else [CClick el])
    /\ checked (page s1) = coerce_truthy v
    /\ set_field drv rule v' s1 = (Ok tt, s2)
    /\ calls s2 = calls s1 ++ [CFindElement (FieldRule.selector rule); CIsSelected el]
    /\ page s2 = page s1.
Proof.
  intros Hty Hfind Hsel Hclick HI Hsame.
  assert (Hstep : exists s1,
    set_field drv rule v s = (Ok tt, s1)
    /\ calls s1
       = calls s ++ [CFindElement (FieldRule.selector rule); CIsSelected el]
           ++ (if Bool.eqb (checked (page s)) (coerce_truthy v) then []
               else [CClick el])
    /\ checked (page s1) = coerce_truthy v /\ I (page s1)).
  { rewrite (set_field_checkbox drv rule v s el (page s) (checked (page s)) (page s))
      by auto.
    destruct (Bool.eqb (checked (page s)) (coerce_truthy v)) eqn:Heq; simpl.
    - eexists. split; [reflexivity|]. simpl.
      rewrite <- ?app_assoc. split; [reflexivity|].
      split; [now apply Bool.eqb_prop | exact HI].
    - destruct (Hclick (page s) HI) as (b' & Hc & HI' & Hch).
      unfold click, invoke. simpl. rewrite Hc.
      eexists. split; [reflexivity|]. simpl.
      rewrite <- !app_assoc. split; [reflexivity|].
      split; [|exact HI'].
      rewrite Hch. apply Bool.eqb_false_iff in Heq.
      destruct (checked (page s)), (coerce_truthy v); simpl; congruence. }
  destruct Hstep as (s1 & Hs1 & Hcalls & Hch & HI1).
  exists s1.
  rewrite (set_field_checkbox drv rule v' s1 el (page s1) (checked (page s1)) (page s1))
    by auto.
  rewrite Hsame, Hch, Bool.eqb_reflx. simpl.
  eexists. split; [exact Hs1|]. split; [exact Hcalls|]. split; [reflexivity|].
  split; [reflexivity|]. simpl. rewrite <- app_assoc. split; reflexivity.
Qed.

(** On the page of check boxes, the unticked box "#agree" set to "YES" is
    clicked once; set again to "yes" it is not clicked. *)
Lemma checkbox_set_is_idempotent_witness :
  exists s1 s2,
    set_field tick_page agree_rule (PyStr "YES") blank_session = (Ok tt, s1)
    /\ calls s1 = [CFindElement "#agree"; CIsSelected "#agree"; CClick "#agree"]
    /\ page s1 "#agree" = true
    /\ set_field tick_page agree_rule (PyStr "yes") s1 = (Ok tt, s2)
    /\ calls s2 = calls s1 ++ [CFindElement "#agree"; CIsSelected "#agree"]
    /\ page s2 = page s1.
Proof.
  destruct (checkbox_set_is_idempotent tick_page (fun _ => True)
              (fun b => b "#agree") agree_rule "#agree"
              (PyStr "YES") (PyStr "yes") blank_session)
    as (s1 & s2 & H1 & H2 & H3 & H4 & H5 & H6).
  - reflexivity.
  - intros b _. reflexivity.
  - intros b _. reflexivity.
  - intros b _. eexists. split; [reflexivity|]. split; [exact Logic.I | reflexivity].
  - exact Logic.I.
  - reflexivity.
  - exists s1, s2. repeat split; assumption.
Defined.

(** ** The success check without a selector (C9) *)

(** C9, as stated, fails: with an empty [text_contains] entry and no
    selector, the test of line 158 is false, [sc["selector"]] is not
    evaluated, and the submitted row is logged success. *)
Lemma empty_text_check_logs_success :
  exists s,
    process_row tick_page literal_fullmatch roomy_buffer plain_args
      (name_only_mapping empty_text_head) ∅ 0 row_ann fresh_run
    = (Ok tt, count_success (writerow roomy_buffer 1 "success" ""
                               (with_sess s fresh_run)))
    /\ calls s = [CGet "http://form.test/"; CFindElement "#name"; CClear "#name";
                  CSendKeys "#name" "Ann"; CFindElement "#go"; CClick "#go"].
Proof. eexists. split; vm_compute; reflexivity. Qed.

(** C9, amended: a mapping whose success check has a non-empty [text_contains] and no
    [selector] key loads without error.  For a row that is validated, filled
    and submitted (not a dry run), [sc["selector"]] raises KeyError before
    any wait is started: the session is the one the submit click left, and
    the row is logged failed with the text of the error, "'selector'". *)
Theorem text_check_without_selector_fails_row {B E : Type}
    (drv : Driver B E) (re_fullmatch : string -> string -> res bool)
    (buffer_full : list csv_row -> bool)
    (args : Args.t) (h : MappingHead)
    (raw_fields : option (list (string * FieldRule.kwargs))) (cfg : Mapping)
    (processed : gset Z) (idx : Z) (row : Row) (st : run B E)
    (sc : SuccessCheck) (text : pyval) (err : option string)
    (s0 s1 : session B E) :
  load_mapping h raw_fields = Ok cfg ->
  success_check h = Some (Some sc) ->
  sc_selector sc = None ->
  sc_text_contains sc = Some text ->
  truthy text = true ->
  Args.dry_run args = false ->
  row_no_of args idx ∉ processed ->
  validate_row re_fullmatch (to_row_dict row) (fields cfg) = Ok err ->
  err_truthy err = false ->
  fill_form drv cfg (to_row_dict row) (sess st) = (Ok tt, s0) ->
  click_submit drv (head cfg) s0 = (Ok tt, s1) ->
  check_success drv args (head cfg) s1 = (Raise (KeyError "selector"), s1)
  /\ process_row drv re_fullmatch buffer_full args cfg processed idx row st
     = (Ok tt, count_fail (writerow buffer_full (row_no_of args idx) "failed"
                             "'selector'" (with_sess s1 st))).
Proof.
  intros Hload Hsc Hsel Htext Htruthy Hdry Hnot Hval Herr Hfill Hclick.
  assert (Hhead : head cfg = h).
  { unfold load_mapping in Hload. destruct raw_fields as [raw|]; [|discriminate].
    destruct (load_fields raw); simpl in Hload; [|discriminate].
    injection Hload as <-. reflexivity. }
  assert (Hcheck : check_success drv args (head cfg) s1
                   = (Raise (KeyError "selector"), s1)).
  { unfold check_success. rewrite Hhead, Hsc.
    unfold await_success, bind. rewrite Hsel, Htext, Htruthy. reflexivity. }
  split; [exact Hcheck|].
  unfold process_row.
  destruct (decide (row_no_of args idx ∈ processed)); [contradiction|].
  rewrite Hval, Herr.
  unfold fill_and_submit, bind. rewrite Hfill, Hdry, Hclick, Hcheck.
  reflexivity.
Qed.

(** The mapping [text_only_head] with one text field loads; the row Ann is
    filled and submitted on the page of check boxes, no wait is called, and
    the row is logged failed with "'selector'". *)
Lemma text_check_without_selector_fails_row_witness :
  load_mapping text_only_head (Some [("name", text_kwargs "#name")])
    = Ok (name_only_mapping text_only_head)
  /\ exists s1,
       calls s1 = [CGet "http://form.test/"; CFindElement "#name"; CClear "#name";
                   CSendKeys "#name" "Ann"; CFindElement "#go"; CClick "#go"]
       /\ process_row tick_page literal_fullmatch roomy_buffer plain_args
            (name_only_mapping text_only_head) ∅ 0 row_ann fresh_run
          = (Ok tt, count_fail (writerow roomy_buffer 1 "failed" "'selector'"
                                  (with_sess s1 fresh_run))).
Proof.
  split; [reflexivity|].
  eexists. split; [|
    eapply (text_check_without_selector_fails_row tick_page literal_fullmatch
              roomy_buffer plain_args text_only_head
              (Some [("name", text_kwargs "#name")])
              (name_only_mapping text_only_head) ∅ 0 row_ann fresh_run
              _ (PyStr "Thank you") None)].
  2: reflexivity. 2: reflexivity. 2: reflexivity. 2: reflexivity. 2: reflexivity.
  2: reflexivity. 2: set_solver. 2: vm_compute; reflexivity. 2: reflexivity.
  2: vm_compute; reflexivity. 2: vm_compute; reflexivity.
  reflexivity.
Defined.

(** ** Reading row numbers back: [int(str(n))] *)

Section IntStr.

Lemma string_of_uint_digits d : all_chars is_digit (NilEmpty.string_of_uint d) = true.
Proof. induction d; simpl; auto. Qed.

Lemma lstrip_no_space s : all_chars (fun c => negb (is_space c)) s = true -> lstrip s = s.
Proof.
  destruct s as [|c s]; simpl; [reflexivity|].
  destruct (is_space c); simpl; [discriminate | reflexivity].
Qed.

Lemma rstrip_no_space s : all_chars (fun c => negb (is_space c)) s = true -> rstrip s = s.
Proof.
  induction s as [|c s IH]; simpl; [reflexivity|].
  intros [Hc Hs]%andb_prop. rewrite (IH Hs).
  destruct s; [|reflexivity].
  destruct (is_space c); [discriminate | reflexivity].
Qed.

Lemma strip_no_space s : all_chars (fun c => negb (is_space c)) s = true -> strip s = s.
Proof.
  intros H. unfold strip. rewrite (lstrip_no_space s H). now apply rstrip_no_space.
Qed.

Lemma all_chars_weaken (p q : ascii -> bool) s :
  (forall c, p c = true -> q c = true) ->
  all_chars p s = true -> all_chars q s = true.
Proof.
  intros Hpq. induction s as [|c s IH]; simpl; [reflexivity|].
  intros [Hc Hs]%andb_prop. rewrite (Hpq c Hc), (IH Hs). reflexivity.
Qed.

Lemma digit_not_space c : is_digit c = true -> negb (is_space c) = true.
Proof.
  unfold is_digit, is_space. intros H.
  destruct (nat_of_ascii c) as [|n] eqn:Hn; [discriminate|].
  apply andb_prop in H as [H1 H2].
  apply Nat.leb_le in H1, H2.
  apply negb_true_iff, orb_false_iff. split; apply andb_false_iff; right;
    apply Nat.leb_gt; lia.
Qed.

Lemma int_body_digits s :
  all_chars is_digit s = true -> int_body s true = Some s.
Proof.
  induction s as [|c s IH]; simpl; [reflexivity|].
  intros [Hc Hs]%andb_prop. rewrite Hc, (IH Hs). reflexivity.
Qed.

Lemma int_body_digits_nonempty c s :
  all_chars is_digit (String c s) = true ->
  int_body (String c s) false = Some (String c s).
Proof.
  simpl. intros [Hc Hs]%andb_prop. rewrite Hc, (int_body_digits s Hs). reflexivity.
Qed.

Lemma int_of_digits_uint orig d :
  d <> Decimal.Nil ->
  int_of_digits orig (NilEmpty.string_of_uint d) = Ok (Z.of_uint d).
Proof.
  intros Hd. unfold int_of_digits.
  pose proof (string_of_uint_digits d) as Hdig.
  destruct (NilEmpty.string_of_uint d) as [|c s] eqn:Hs.
  - destruct d; simpl in Hs; congruence.
  - rewrite (int_body_digits_nonempty c s Hdig), <- Hs, NilEmpty.usu. reflexivity.
Qed.

Lemma to_uint_nonnil p : Pos.to_uint p <> Decimal.Nil.
Proof.
  intros H. pose proof (DecimalPos.Unsigned.of_to p) as Hp.
  rewrite H in Hp. discriminate.
Qed.

(** The row number written by a run is read back by [int] as it was. *)
Lemma int_str_int z : Py.int (str_int z) = Ok z.
Proof.
  unfold str_int, Py.int.
  remember (Z.to_int z) as i eqn:Hz. symmetry in Hz.
  assert (Hzi : z = Z.of_int i) by (subst i; symmetry; apply DecimalZ.of_to).
  rewrite Hzi. clear Hzi.
  destruct i as [d|d]; simpl NilEmpty.string_of_int.
  - assert (Hd : d <> Decimal.Nil).
    { destruct z; simpl in Hz; try discriminate; injection Hz as <-;
        [discriminate | apply to_uint_nonnil]. }
    pose proof (string_of_uint_digits d) as Hdig.
    rewrite strip_no_space
      by (eapply all_chars_weaken; [apply digit_not_space | exact Hdig]).
    destruct (NilEmpty.string_of_uint d) as [|c s] eqn:Hs.
    + destruct d; simpl in Hs; congruence.
    + assert (Hc : is_digit c = true) by (simpl in Hdig; now apply andb_prop in Hdig).
      assert (Hm : Ascii.eqb c "-" = false).
      { apply Ascii.eqb_neq. intros ->. discriminate. }
      assert (Hp : Ascii.eqb c "+" = false).
      { apply Ascii.eqb_neq. intros ->. discriminate. }
      rewrite Hm, Hp, <- Hs. now apply int_of_digits_uint.
  - assert (Hd : d <> Decimal.Nil).
    { destruct z; simpl in Hz; try discriminate. injection Hz as <-.
      apply to_uint_nonnil. }
    pose proof (string_of_uint_digits d) as Hdig.
    rewrite strip_no_space.
    + simpl. rewrite int_of_digits_uint by exact Hd. reflexivity.
    + simpl. eapply all_chars_weaken; [apply digit_not_space | exact Hdig].
Qed.

End IntStr.

(** ** Resume (C5) *)

Section ResumeFacts.

Lemma dict_reader_log recs : dict_reader (log_of recs) = map record_dict recs.
Proof.
  unfold dict_reader, log_of.
  induction recs as [|[[n status] message] recs IH]; simpl; [reflexivity|].
  f_equal. exact IH.
Qed.

Lemma record_dict_status n status message :
  record_dict (n, status, message) !! "status" = Some (Some status).
Proof.
  unfold record_dict, header, record_row. simpl.
  rewrite lookup_insert_ne by discriminate. apply lookup_insert_eq.
Qed.

Lemma record_dict_row n status message :
  record_dict (n, status, message) !! "row" = Some (Some (str_int n)).
Proof.
  unfold record_dict, header, record_row. simpl.
  rewrite !lookup_insert_ne by discriminate. apply lookup_insert_eq.
Qed.

(** The loop over a log of this program's records never raises, and adds
    exactly the row numbers of the records whose status is success. *)
Lemma collect_processed_log recs (acc : gset Z) :
  exists processed,
    collect_processed (map record_dict recs) acc = Ok processed
    /\ forall n, n ∈ processed <-> n ∈ acc \/ exists m, (n, "success", m) ∈ recs.
Proof.
  revert acc. induction recs as [|[[k status] message] recs IH]; intros acc;
    cbn [map collect_processed].
  - exists acc. split; [reflexivity|]. intros n. split; [auto|].
    intros [H | [m H]]; [exact H|]. inversion H.
  - unfold status_is_success. rewrite record_dict_status.
    destruct (String.eqb_spec status "success") as [-> | Hne].
    + rewrite record_dict_row, int_str_int. simpl.
      destruct (IH ({[ k ]} ∪ acc)) as (processed & Hrun & Hmem).
      exists processed. split; [exact Hrun|].
      intros n. rewrite Hmem. split.
      * intros [Hin | [m Hin]].
        -- apply elem_of_union in Hin as [Hin | Hin]; [|auto].
           apply elem_of_singleton in Hin as ->.
           right. exists message. apply elem_of_cons. auto.
        -- right. exists m. apply elem_of_cons. auto.
      * intros [Hin | [m Hin]].
        -- left. apply elem_of_union. auto.
        -- apply elem_of_cons in Hin as [Heq | Hin].
           ++ injection Heq as -> _. left. apply elem_of_union. left.
              now apply elem_of_singleton.
           ++ right. exists m. exact Hin.
    + destruct (IH acc) as (processed & Hrun & Hmem).
      exists processed. split; [exact Hrun|].
      intros n. rewrite Hmem. split.
      * intros [Hin | [m Hin]]; [auto|].
        right. exists m. apply elem_of_cons. auto.
      * intros [Hin | [m Hin]]; [auto|].
        apply elem_of_cons in Hin as [Heq | Hin].
        -- injection Heq as _ Hst _. congruence.
        -- right. exists m. exact Hin.
Qed.


End ResumeFacts.




(** ** The outcome log (C6, C10) *)

Section LogFacts.

Context {B E : Type}.
Variable drv : Driver B E.
Variable re_fullmatch : string -> string -> res bool.
Variable buffer_full : list csv_row -> bool.

Lemma contents_write_row r f :
  contents (write_row buffer_full r f) = contents f ++ [r].
Proof.
  unfold write_row, contents. simpl.
  destruct (buffer_full (pending f ++ [r])); simpl;
    rewrite ?app_nil_r, app_assoc; reflexivity.
Qed.

Lemma close_writes_all f :
  disk (close f) = contents f /\ pending (close f) = [] /\ closed (close f) = true.
Proof. unfold close, contents. simpl. auto. Qed.

Lemma contents_close f : contents (close f) = contents f.
Proof. unfold close, contents. simpl. apply app_nil_r. Qed.

Lemma contents_prepare_writer existing :
  contents (prepare_writer buffer_full existing)
  = match existing with Some rows => rows | None => [header] end.
Proof.
  unfold prepare_writer. destruct existing as [rows|].
  - unfold contents, open_append. simpl. apply app_nil_r.
  - rewrite contents_write_row. reflexivity.
Qed.

(** A row that is processed adds one record, with its row number, to the
    stream; a row whose validation raises adds nothing. *)
Lemma process_row_out args cfg (processed : gset Z) idx row (st st' : run B E) r :
  process_row drv re_fullmatch buffer_full args cfg processed idx row st = (r, st') ->
  match r with
  | Ok _ =>
      exists status message,
        contents (out st')
        = contents (out st) ++ [record_row (row_no_of args idx) status message]
  | Raise _ => st' = st
  end.
Proof.
  unfold process_row.
  destruct (decide (row_no_of args idx ∈ processed)).
  { intros [= <- <-]. do 2 eexists. simpl. apply contents_write_row. }
  destruct (validate_row re_fullmatch (to_row_dict row) (fields cfg)) as [err|e].
  2: { intros [= <- <-]. reflexivity. }
  destruct (err_truthy err).
  { intros [= <- <-]. do 2 eexists. simpl. apply contents_write_row. }
  destruct (fill_and_submit drv args cfg (to_row_dict row) (sess st)) as [[u|e] s].
  { intros [= <- <-]. do 2 eexists. simpl. apply contents_write_row. }
  destruct (is_form_error e);
    intros [= <- <-]; do 2 eexists; simpl; apply contents_write_row.
Qed.

(** The loop writes the records of the rows it completes, in order: all
    the rows when it ends normally, the rows before the one in flight when
    an exception leaves it. *)
Lemma run_loop_out args cfg (processed : gset Z) rows (st st' : run B E) r :
  run_loop drv re_fullmatch buffer_full args cfg processed rows st = (r, st') ->
  exists (k : nat) recs,
    match r with
    | Ok _ => k = length rows
    | Raise _ => (k < length rows)%nat
    end
    /\ contents (out st') = contents (out st) ++ recs
    /\ Forall2 (fun rec (ir : Z * Row) =>
                  exists status message,
                    rec = record_row (row_no_of args (fst ir)) status message)
         recs (take k rows).
Proof.
  revert st. induction rows as [|[idx row] rows IH]; intros st; simpl.
  - intros [= <- <-]. exists 0%nat, []. simpl.
    split; [reflexivity|]. split; [symmetry; apply app_nil_r | constructor].
  - destruct (process_row drv re_fullmatch buffer_full args cfg processed idx row st)
      as [[u|e] st1] eqn:Hrow; apply process_row_out in Hrow.
    + destruct Hrow as (status & message & Hout).
      intros Hloop. destruct (IH st1 Hloop) as (k & recs & Hk & Hrecs & Hall).
      exists (S k), (record_row (row_no_of args idx) status message :: recs).
      split; [destruct r; simpl; lia|].
      split.
      * rewrite Hrecs, Hout, <- app_assoc. reflexivity.
      * simpl. constructor; [eauto | exact Hall].
    + intros [= <- <-]. subst st1. exists 0%nat, []. simpl.
      split; [lia|]. split; [symmetry; apply app_nil_r | constructor].
Qed.

End LogFacts.

Lemma str_int_not_row n : str_int n <> "row".
Proof.
  intros H.
  assert (Hc : all_chars (fun c => is_digit c || Ascii.eqb c "-") (str_int n) = true).
  { unfold str_int. destruct (Z.to_int n) as [d|d]; simpl.
    - eapply all_chars_weaken; [|apply string_of_uint_digits].
      intros c ->. reflexivity.
    - eapply all_chars_weaken; [|apply string_of_uint_digits].
      intros c ->. reflexivity. }
  rewrite H in Hc. discriminate.
Qed.

Lemma record_is_not_header r : is_record r -> r <> header.
Proof.
  intros (n & status & message & ->) [=H _ _]. now apply (str_int_not_row n).
Qed.




Section MainFacts.

Context {B E : Type}.
Variable drv : Driver B E.
Variable re_fullmatch : string -> string -> res bool.
Variable buffer_full : list csv_row -> bool.
Variable launch_browser : string -> bool -> res B.

Lemma closed_prepare_writer existing :
  closed (prepare_writer buffer_full existing) = false.
Proof.
  unfold prepare_writer, write_row. destruct existing; simpl; [reflexivity|].
  destruct (buffer_full _); reflexivity.
Qed.

Lemma records_of_loop args (recs : list csv_row) (rows : list (Z * Row)) :
  Forall2 (fun rec (ir : Z * Row) =>
             exists status message,
               rec = record_row (row_no_of args (fst ir)) status message)
    recs rows ->
  Forall is_record recs.
Proof.
  induction 1 as [|rec ir recs rows (status & message & ->) _ IH]; constructor.
  - unfold is_record. eauto.
  - exact IH.
Qed.

End MainFacts.

(** C10: whenever [main] has opened the log, its stream holds, when the file
    existed at startup, the existing rows followed by records only, and, when
    it did not, the header followed by records only.  No record is a header
    line, so no second header is written and the rows of prior runs stay in
    front, unchanged; once the stream is closed all of it is in the file. *)
Theorem header_written_only_for_new_file {B E : Type}
    (drv : Driver B E) (re_fullmatch : string -> string -> res bool)
    (buffer_full : list csv_row -> bool)
    (launch_browser : string -> bool -> res B)
    (args : Args.t) (h : MappingHead)
    (raw_fields : option (list (string * FieldRule.kwargs)))
    (table : list Row) (existing : option (list csv_row)) (f : out_file) :
  log (main drv re_fullmatch buffer_full launch_browser args h raw_fields table existing)
    = Some f ->
  exists recs,
    contents f
    = match existing with Some rows => rows ++ recs | None => header :: recs end
    /\ Forall is_record recs
    /\ Forall (fun r => r <> header) recs
    /\ (closed f = true -> disk f = contents f).
Proof.
  assert (Hbase : forall recs,
            contents (prepare_writer buffer_full existing) ++ recs
            = match existing with Some rows => rows ++ recs | None => header :: recs end).
  { intros recs. rewrite contents_prepare_writer. destruct existing; reflexivity. }
  assert (Hloop : forall (r : res unit) cfg processed rows st st',
            out st = prepare_writer buffer_full existing ->
            run_loop drv re_fullmatch buffer_full args cfg processed rows st = (r, st') ->
            exists recs,
              contents (out (finally drv st'))
              = match existing with Some rows => rows ++ recs | None => header :: recs end
              /\ Forall is_record recs
              /\ Forall (fun r => r <> header) recs
              /\ (closed (out (finally drv st')) = true ->
                  disk (out (finally drv st')) = contents (out (finally drv st')))).
  { intros r cfg processed rows st st' Hout Hrun.
    destruct (run_loop_out drv re_fullmatch buffer_full args cfg processed rows st st' r Hrun)
      as (k & recs & _ & Hrecs & Hall).
    apply records_of_loop in Hall.
    exists recs. change (out (finally drv st')) with (close (out st')).
    rewrite contents_close, Hrecs, Hout, Hbase.
    split; [reflexivity|]. split; [exact Hall|].
    split.
    - eapply Forall_impl; [exact Hall|]. intros rec. apply record_is_not_header.
    - intros _. rewrite <- Hbase, <- Hout, <- Hrecs. apply close_writes_all. }
  unfold main.
  destruct (load_mapping h raw_fields) as [cfg|e]; simpl; [|discriminate].
  destruct (load_processed (Args.resume args) existing) as [processed|e]; simpl;
    [|discriminate].
  destruct (launch_browser _ _) as [b|e].
  - destruct (run_loop _ _ _ _ _ _ _ _) as [[u|e] st'] eqn:Hrun; simpl;
      intros [= <-]; eapply Hloop; try exact Hrun; reflexivity.
  - assert (Hnone : exists recs,
              contents (prepare_writer buffer_full existing)
              = match existing with Some rows => rows ++ recs | None => header :: recs end
              /\ Forall is_record recs
              /\ Forall (fun r => r <> header) recs
              /\ (closed (prepare_writer buffer_full existing) = true ->
                  disk (prepare_writer buffer_full existing)
                  = contents (prepare_writer buffer_full existing))).
    { exists []. rewrite <- Hbase, app_nil_r.
      split; [reflexivity|]. split; [constructor|]. split; [constructor|].
      rewrite closed_prepare_writer. discriminate. }
    destruct (is_WebDriverException e); simpl; intros [= <-]; exact Hnone.
Qed.

(** A run on top of the log of a prior run leaves that log in front and adds
    its two records, without a header. *)
Lemma header_written_only_for_new_file_witness :
  log rerun = Some rerun_log
  /\ exists recs,
       contents rerun_log = log_of prior_records ++ recs
       /\ Forall (fun r => r <> header) recs
       /\ disk rerun_log = contents rerun_log.
Proof.
  assert (Hlog : log rerun = Some rerun_log) by (vm_compute; reflexivity).
  split; [exact Hlog|].
  destruct (header_written_only_for_new_file tick_page literal_fullmatch roomy_buffer
              chrome_ok rerun_args simple_head (Some [("name", text_kwargs "#name")])
              [row_ann; row_bob] (Some (log_of prior_records)) rerun_log Hlog)
    as (recs & Hc & _ & Hh & Hd).
  exists recs. split; [exact Hc|]. split; [exact Hh|]. apply Hd. reflexivity.
Defined.


(** * Further properties of the code *)

(** ** [coerce_truthy] (lines 32-33) *)

Lemma str_int_chars z :
  all_chars (fun c => is_digit c || Ascii.eqb c "-") (str_int z) = true.
Proof.
  unfold str_int. destruct (Z.to_int z) as [d|d]; simpl;
    (eapply all_chars_weaken; [|apply string_of_uint_digits]);
    intros c ->; reflexivity.
Qed.

Lemma lower_char_fixed c :
  is_digit c || Ascii.eqb c "-" = true -> lower_char c = c.
Proof.
  destruct c as [[] [] [] [] [] [] [] []]; simpl; intros H;
    try discriminate; reflexivity.
Qed.

Lemma lower_fixed s :
  all_chars (fun c => is_digit c || Ascii.eqb c "-") s = true -> lower s = s.
Proof.
  induction s as [|c s IH]; simpl; [reflexivity|].
  intros [Hc Hs]%andb_prop. rewrite (lower_char_fixed c Hc), (IH Hs). reflexivity.
Qed.

Lemma digit_or_minus_not_space c :
  is_digit c || Ascii.eqb c "-" = true -> negb (is_space c) = true.
Proof.
  destruct c as [[] [] [] [] [] [] [] []]; simpl; intros H;
    try discriminate; reflexivity.
Qed.

Lemma str_int_one z : String.eqb (str_int z) "1" = (z =? 1).
Proof.
  destruct (String.eqb_spec (str_int z) "1") as [H | H].
  - pose proof (int_str_int z) as Hz. rewrite H in Hz.
    vm_compute in Hz. injection Hz as <-. reflexivity.
  - symmetry. apply Z.eqb_neq. intros ->. apply H. reflexivity.
Qed.

Lemma str_int_not_word z w c :
  is_digit c || Ascii.eqb c "-" = false ->
  String.eqb (str_int z) (String c w) = false.
Proof.
  intros Hc. apply String.eqb_neq. intros H.
  pose proof (str_int_chars z) as Hz. rewrite H in Hz. simpl in Hz.
  rewrite Hc in Hz. discriminate.
Qed.

(** X1: on values that are not text, [coerce_truthy] is true exactly for
    the integer 1 and the boolean True; None and NaN are false. *)
Theorem coerce_truthy_of_scalars (z : Z) (b : bool) :
  coerce_truthy (PyInt z) = (z =? 1)
  /\ coerce_truthy (PyBool b) = b
  /\ coerce_truthy PyNone = false
  /\ coerce_truthy PyNaN = false.
Proof.
  split; [|split; [destruct b; reflexivity | split; reflexivity]].
  unfold coerce_truthy. cbn [str].
  pose proof (str_int_chars z) as Hz.
  rewrite strip_no_space
    by (eapply all_chars_weaken; [apply digit_or_minus_not_space | exact Hz]).
  rewrite lower_fixed by exact Hz.
  unfold str_in, truthy_words. cbn [existsb].
  rewrite str_int_one, !str_int_not_word by reflexivity.
  rewrite !orb_false_r. reflexivity.
Qed.

Lemma is_space_lower_char c : is_space (lower_char c) = is_space c.
Proof. destruct c as [[] [] [] [] [] [] [] []]; reflexivity. Qed.

Lemma lower_lstrip s : lower (lstrip s) = lstrip (lower s).
Proof.
  induction s as [|c s IH]; simpl; [reflexivity|].
  rewrite is_space_lower_char. destruct (is_space c); [exact IH | reflexivity].
Qed.

Lemma lower_rstrip s : lower (rstrip s) = rstrip (lower s).
Proof.
  induction s as [|c s IH]; simpl; [reflexivity|].
  rewrite <- IH, is_space_lower_char.
  destruct (rstrip s) as [|d r]; simpl; [|reflexivity].
  destruct (is_space c); reflexivity.
Qed.

Lemma lower_strip s : lower (strip s) = strip (lower s).
Proof. unfold strip. rewrite lower_rstrip, lower_lstrip. reflexivity. Qed.

(** X2: [coerce_truthy] does not see letter case: two texts with the same
    lower-case form are coerced to the same boolean. *)
Theorem coerce_truthy_ignores_case (s s' : string) :
  lower s = lower s' ->
  coerce_truthy (PyStr s) = coerce_truthy (PyStr s').
Proof.
  intros H. unfold coerce_truthy. cbn [str]. rewrite !lower_strip, H. reflexivity.
Qed.

Lemma coerce_truthy_ignores_case_witness :
  coerce_truthy (PyStr " Yes ") = coerce_truthy (PyStr " yES ")
  /\ coerce_truthy (PyStr " yES ") = true.
Proof.
  split; [|reflexivity].
  apply (coerce_truthy_ignores_case " Yes " " yES "). reflexivity.
Defined.

(** ** [validate_row] (lines 35-48) *)

Section MoreValidationFacts.

Variable re_fullmatch : string -> string -> res bool.

Lemma check_validator_none col vd :
  check_validator re_fullmatch col PyNone vd = Ok Continue.
Proof.
  unfold check_validator, check_regex, check_enum. simpl.
  rewrite !andb_false_r. reflexivity.
Qed.

Lemma run_validators_none col vds :
  run_validators re_fullmatch col PyNone vds = Ok Continue.
Proof.
  induction vds as [|vd vds IH]; simpl; [reflexivity|].
  rewrite check_validator_none. exact IH.
Qed.

Lemma check_validator_unknown_type col val vd :
  type_is vd "regex" = false -> type_is vd "enum" = false ->
  check_validator re_fullmatch col val vd = Ok Continue.
Proof.
  intros Hr He. unfold check_validator, check_regex, check_enum.
  rewrite Hr, He. reflexivity.
Qed.

End MoreValidationFacts.

(** X4: a cell that is absent, None or NaN in the source row passes every
    field that is not required or has a default, whatever validators the
    field lists, malformed ones included: none of them is evaluated. *)
Theorem none_cell_passes_field
    (re_fullmatch : string -> string -> res bool) (row : Row)
    (col : string) (rule : FieldRule.t) :
  (row !! col = None \/ row !! col = Some PyNone \/ row !! col = Some PyNaN) ->
  (FieldRule.required rule = false \/ FieldRule.default rule <> None) ->
  check_field re_fullmatch (to_row_dict row) col rule = Ok Continue.
Proof.
  intros Hcell Hopt.
  assert (Hval : row_get (to_row_dict row) col = PyNone).
  { unfold row_get, to_row_dict. rewrite lookup_fmap.
    destruct Hcell as [-> | [-> | ->]]; reflexivity. }
  unfold check_field. rewrite Hval.
  assert (Hm : missing_required PyNone rule = false).
  { unfold missing_required. simpl.
    destruct Hopt as [-> | Hd]; [reflexivity|].
    destruct (FieldRule.default rule); [|contradiction].
    apply andb_false_r. }
  rewrite Hm.
  destruct (FieldRule.validators rule) as [[|vd vds]|]; try reflexivity.
  apply run_validators_none.
Qed.

Lemma none_cell_passes_field_witness :
  check_field literal_fullmatch (to_row_dict row_ann) "code" code_rule = Ok Continue.
Proof.
  apply (none_cell_passes_field literal_fullmatch row_ann "code" code_rule).
  - left. vm_compute. reflexivity.
  - left. reflexivity.
Defined.

(** X5: a validator whose type is neither regex nor enum is inert: removing
    it from a field's list does not change what the list returns or raises,
    even when the validator has no other key. *)
Theorem unknown_validator_is_ignored
    (re_fullmatch : string -> string -> res bool) (col : string) (val : pyval)
    (vs1 vs2 : list Validator) (vd : Validator) :
  type_is vd "regex" = false ->
  type_is vd "enum" = false ->
  run_validators re_fullmatch col val (vs1 ++ vd :: vs2)
    = run_validators re_fullmatch col val (vs1 ++ vs2).
Proof.
  intros Hr He. induction vs1 as [|w vs1 IH]; simpl.
  - rewrite check_validator_unknown_type by assumption. reflexivity.
  - destruct (check_validator re_fullmatch col val w) as [[|v]|e]; simpl;
      [exact IH | reflexivity | reflexivity].
Qed.

Lemma unknown_validator_is_ignored_witness :
  run_validators literal_fullmatch "country" (PyStr "FR")
    ([regex_only "FR"]
       ++ {| vd_type := Some "length"; vd_pattern := None;
             vd_values := None; vd_message := None |} :: [enum_country])
  = run_validators literal_fullmatch "country" (PyStr "FR")
      ([regex_only "FR"] ++ [enum_country]).
Proof.
  apply (unknown_validator_is_ignored literal_fullmatch "country" (PyStr "FR")
           [regex_only "FR"] [enum_country]); reflexivity.
Defined.

(** X6: a field with a default is never missing, and the default is what is
    typed: when the source cell is absent, None, NaN or the empty string,
    the missing-field test of line 38 is false, required or not, and the
    value passed to [set_field] is the default. *)
Theorem default_fills_empty_cell (row : Row) (col d : string) (rule : FieldRule.t) :
  FieldRule.default rule = Some d ->
  (row !! col = None \/ row !! col = Some PyNone \/ row !! col = Some PyNaN
     \/ row !! col = Some (PyStr "")) ->
  missing_required (row_get (to_row_dict row) col) rule = false
  /\ fill_value (to_row_dict row) col rule = PyStr d.
Proof.
  intros Hd Hcell. unfold fill_value, missing_required. rewrite Hd.
  split; [apply andb_false_r|].
  assert (Hval : row_get (to_row_dict row) col = PyNone
                 \/ row_get (to_row_dict row) col = PyStr "").
  { unfold row_get, to_row_dict. rewrite lookup_fmap.
    destruct Hcell as [-> | [-> | [-> | ->]]]; simpl; auto. }
  destruct Hval as [-> | ->]; reflexivity.
Qed.

Lemma default_fills_empty_cell_witness :
  missing_required (row_get (to_row_dict row_no_name) "name")
    {| FieldRule.selector := "#name"; FieldRule.type := "input";
       FieldRule.required := true; FieldRule.default := Some "n/a";
       FieldRule.validators := None |} = false
  /\ fill_value (to_row_dict row_no_name) "name"
       {| FieldRule.selector := "#name"; FieldRule.type := "input";
          FieldRule.required := true; FieldRule.default := Some "n/a";
          FieldRule.validators := None |} = PyStr "n/a".
Proof.
  apply (default_fills_empty_cell row_no_name "name" "n/a"); [reflexivity|].
  right. right. left. vm_compute. reflexivity.
Defined.

(** ** [set_field] and the fill loop (lines 50-64, 144-148) *)

(** X7: when the element of a rule is not found, [set_field] raises the
    driver's exception after that single call, whatever the kind of the rule
    is: nothing is cleared, typed, selected or clicked, and an unknown kind
    is not reported. *)
Theorem set_field_stops_when_not_found {B E : Type} (drv : Driver B E)
    (rule : FieldRule.t) (value : pyval) (s : session B E) (e : exn) (b : B) :
  drv_find_element drv (FieldRule.selector rule) (page s) = (Raise e, b) ->
  set_field drv rule value s
  = (Raise e, {| page := b;
                 calls := calls s ++ [CFindElement (FieldRule.selector rule)] |}).
Proof.
  intros Hfind. unfold set_field, bind, find_element, invoke.
  rewrite Hfind. reflexivity.
Qed.

Lemma set_field_stops_when_not_found_witness :
  set_field no_name_page
    {| FieldRule.selector := "#name"; FieldRule.type := "radio";
       FieldRule.required := false; FieldRule.default := None;
       FieldRule.validators := None |} (PyStr "x") blank_session
  = (Raise (NoSuchElementException "Message: no such element"),
     {| page := page blank_session; calls := calls blank_session ++ [CFindElement "#name"] |}).
Proof.
  apply (set_field_stops_when_not_found no_name_page
           {| FieldRule.selector := "#name"; FieldRule.type := "radio";
              FieldRule.required := false; FieldRule.default := None;
              FieldRule.validators := None |}).
  reflexivity.
Defined.

Section FillFacts.

Context {B E : Type}.
Variable drv : Driver B E.

Lemma fill_fields_app row_dict fs1 fs2 (s : session B E) :
  fill_fields drv row_dict (fs1 ++ fs2) s
  = match fill_fields drv row_dict fs1 s with
    | (Ok _, s1) => fill_fields drv row_dict fs2 s1
    | (Raise e, s1) => (Raise e, s1)
    end.
Proof.
  revert s. induction fs1 as [|[col rule] fs1 IH]; intros s; simpl; [reflexivity|].
  unfold bind.
  destruct (set_field drv rule (fill_value row_dict col rule) s) as [[u|e] s1];
    [apply IH | reflexivity].
Qed.

End FillFacts.

(** X8: the fill loop is fail-fast in declared order: when the fields
    before [col] are set and [set_field] raises on [col], the loop raises that
    exception in the session [set_field] left; the fields after [col] are
    not touched. *)
Theorem fill_stops_at_first_failure {B E : Type} (drv : Driver B E)
    (row_dict : Row) (pre post : list (string * FieldRule.t))
    (col : string) (rule : FieldRule.t) (s s1 s2 : session B E) (e : exn) :
  fill_fields drv row_dict pre s = (Ok tt, s1) ->
  set_field drv rule (fill_value row_dict col rule) s1 = (Raise e, s2) ->
  fill_fields drv row_dict (pre ++ (col, rule) :: post) s = (Raise e, s2).
Proof.
  intros Hpre Hset. rewrite fill_fields_app, Hpre. simpl. unfold bind.
  rewrite Hset. reflexivity.
Qed.

Lemma fill_stops_at_first_failure_witness :
  exists s2,
    fill_fields no_name_page (to_row_dict row_ann)
      ([("agree", agree_rule)] ++ ("name", text_rule "#name") :: [("email", email_rule)])
      blank_session
    = (Raise (NoSuchElementException "Message: no such element"), s2)
    /\ calls s2 = [CFindElement "#agree"; CIsSelected "#agree"; CFindElement "#name"].
Proof.
  eexists. split.
  - eapply (fill_stops_at_first_failure no_name_page (to_row_dict row_ann)
              [("agree", agree_rule)] [("email", email_rule)] "name" (text_rule "#name")
              blank_session).
    + vm_compute. reflexivity.
    + vm_compute. reflexivity.
  - reflexivity.
Defined.

(** ** The row loop (lines 127-167) *)

Section LoopFacts.

Context {B E : Type}.
Variable drv : Driver B E.
Variable re_fullmatch : string -> string -> res bool.
Variable buffer_full : list csv_row -> bool.

Lemma process_row_counts args cfg (processed : gset Z) idx row (st st' : run B E) u :
  process_row drv re_fullmatch buffer_full args cfg processed idx row st = (Ok u, st') ->
  successes st <= successes st' /\ fails st <= fails st'
  /\ successes st' + fails st'
     = successes st + fails st
       + (if bool_decide (row_no_of args idx ∈ processed) then 0 else 1).
Proof.
  unfold process_row.
  destruct (decide (row_no_of args idx ∈ processed)) as [Hin | Hnot].
  { rewrite (bool_decide_eq_true_2 _ Hin). intros [= <- <-]. simpl. lia. }
  rewrite (bool_decide_eq_false_2 _ Hnot).
  destruct (validate_row re_fullmatch (to_row_dict row) (fields cfg)) as [err|e];
    [|discriminate].
  destruct (err_truthy err).
  { intros [= <- <-]. simpl. lia. }
  destruct (fill_and_submit drv args cfg (to_row_dict row) (sess st)) as [[v|e] s].
  { intros [= <- <-]. simpl. lia. }
  destruct (is_form_error e); intros [= <- <-]; simpl; lia.
Qed.

Lemma process_row_raises args cfg (processed : gset Z) idx row (st st' : run B E) e :
  process_row drv re_fullmatch buffer_full args cfg processed idx row st = (Raise e, st') ->
  (row_no_of args idx ∉ processed)
  /\ validate_row re_fullmatch (to_row_dict row) (fields cfg) = Raise e.
Proof.
  unfold process_row.
  destruct (decide (row_no_of args idx ∈ processed)) as [Hin | Hnot]; [discriminate|].
  destruct (validate_row re_fullmatch (to_row_dict row) (fields cfg)) as [err|e'].
  - destruct (err_truthy err); [discriminate|].
    destruct (fill_and_submit drv args cfg (to_row_dict row) (sess st)) as [[v|e''] s];
      [discriminate|].
    destruct (is_form_error e''); discriminate.
  - intros [= <- <-]. auto.
Qed.

End LoopFacts.

(** X9: when the loop ends normally, every row is counted once: the
    successes and the failures it added, together with the rows skipped by
    resume, are as many as the rows; neither counter ever goes down. *)
Theorem counters_account_for_rows {B E : Type}
    (drv : Driver B E) (re_fullmatch : string -> string -> res bool)
    (buffer_full : list csv_row -> bool)
    (args : Args.t) (cfg : Mapping) (processed : gset Z)
    (rows : list (Z * Row)) (st st' : run B E) :
  run_loop drv re_fullmatch buffer_full args cfg processed rows st = (Ok tt, st') ->
  successes st <= successes st' /\ fails st <= fails st'
  /\ (successes st' - successes st) + (fails st' - fails st)
     + Z.of_nat (length (skipped_rows args processed rows))
     = Z.of_nat (length rows).
Proof.
  revert st. induction rows as [|[idx row] rows IH]; intros st; simpl.
  - intros [= <-]. lia.
  - destruct (process_row drv re_fullmatch buffer_full args cfg processed idx row st)
      as [[u|e] st1] eqn:Hrow; [|discriminate].
    intros Hloop. apply process_row_counts in Hrow as (Hs & Hf & Hsum).
    destruct (IH st1 Hloop) as (Hs' & Hf' & Hsum').
    unfold skipped_rows in *. simpl.
    destruct (bool_decide (row_no_of args idx ∈ processed)); simpl; lia.
Qed.

Lemma counters_account_for_rows_witness :
  exists st',
    run_loop tick_page literal_fullmatch roomy_buffer resume_args two_field_mapping
      {[ 7 ]} (iterrows [row_no_name; row_no_name; row_ann])
      (first_run_state roomy_buffer) = (Ok tt, st')
    /\ (successes st' - 0) + (fails st' - 0)
       + Z.of_nat (length (skipped_rows resume_args {[ 7 ]}
                             (iterrows [row_no_name; row_no_name; row_ann])))
       = 3
    /\ fails st' = 1.
Proof.
  eexists. split; [vm_compute; reflexivity|].
  split; [|reflexivity].
  apply (counters_account_for_rows tick_page literal_fullmatch roomy_buffer resume_args
           two_field_mapping {[ 7 ]} (iterrows [row_no_name; row_no_name; row_ann])
           (first_run_state roomy_buffer)).
  vm_compute. reflexivity.
Defined.

(** X10: the only exception that leaves the row loop is one raised by
    [validate_row] on a row that resume does not skip; whatever the driver
    raises is caught at row scope. *)
Theorem loop_raises_only_from_validation {B E : Type}
    (drv : Driver B E) (re_fullmatch : string -> string -> res bool)
    (buffer_full : list csv_row -> bool)
    (args : Args.t) (cfg : Mapping) (processed : gset Z)
    (rows : list (Z * Row)) (st st' : run B E) (e : exn) :
  run_loop drv re_fullmatch buffer_full args cfg processed rows st = (Raise e, st') ->
  exists idx row,
    (idx, row) ∈ rows
    /\ (row_no_of args idx ∉ processed)
    /\ validate_row re_fullmatch (to_row_dict row) (fields cfg) = Raise e.
Proof.
  revert st. induction rows as [|[idx row] rows IH]; intros st; simpl; [discriminate|].
  destruct (process_row drv re_fullmatch buffer_full args cfg processed idx row st)
    as [[u|e'] st1] eqn:Hrow.
  - intros Hloop. destruct (IH st1 Hloop) as (i & r & Hin & Hrest).
    exists i, r. split; [apply elem_of_cons; auto | exact Hrest].
  - intros [= <- <-]. apply process_row_raises in Hrow as [Hnot Hval].
    exists idx, row. split; [apply elem_of_cons; auto | auto].
Qed.

Lemma loop_raises_only_from_validation_witness :
  exists idx row,
    (idx, row) ∈ two_rows
    /\ (row_no_of plain_args idx ∉ (∅ : gset Z))
    /\ validate_row literal_fullmatch (to_row_dict row) (fields broken_mapping)
       = Raise (KeyError "pattern").
Proof.
  apply (loop_raises_only_from_validation tick_page literal_fullmatch roomy_buffer
           plain_args broken_mapping ∅ two_rows (first_run_state roomy_buffer)
           (snd (run_loop tick_page literal_fullmatch roomy_buffer plain_args
                   broken_mapping ∅ two_rows (first_run_state roomy_buffer)))).
  vm_compute. reflexivity.
Defined.

(** X11: a row that is validated and whose form handling raises is logged
    failed and the loop goes on: a TimeoutException or NoSuchElementException
    is logged as "form error: <class name>", any other exception with its
    own text. *)
Theorem form_failure_is_logged {B E : Type}
    (drv : Driver B E) (re_fullmatch : string -> string -> res bool)
    (buffer_full : list csv_row -> bool)
    (args : Args.t) (cfg : Mapping) (processed : gset Z) (idx : Z) (row : Row)
    (st : run B E) (err : option string) (e : exn) (s : session B E) :
  row_no_of args idx ∉ processed ->
  validate_row re_fullmatch (to_row_dict row) (fields cfg) = Ok err ->
  err_truthy err = false ->
  fill_and_submit drv args cfg (to_row_dict row) (sess st) = (Raise e, s) ->
  process_row drv re_fullmatch buffer_full args cfg processed idx row st
  = (Ok tt,
     count_fail
       (writerow buffer_full (row_no_of args idx) "failed"
          (match e with
           | TimeoutException _ => "form error: TimeoutException"
           | NoSuchElementException _ => "form error: NoSuchElementException"
           | _ => exn_str e
           end)
          (with_sess s st))).
Proof.
  intros Hnot Hval Herr Hform. unfold process_row.
  destruct (decide (row_no_of args idx ∈ processed)); [contradiction|].
  rewrite Hval, Herr, Hform. destruct e; reflexivity.
Qed.

(** The success element never becomes visible: the row is logged failed with
    "form error: TimeoutException", after the submit click and one wait. *)
Lemma form_failure_is_logged_witness :
  exists s,
    calls s = [CGet "http://form.test/"; CFindElement "#name"; CClear "#name";
               CSendKeys "#name" "Ann"; CFindElement "#go"; CClick "#go";
               CWaitVisible (PyStr "#msg")]
    /\ process_row never_visible literal_fullmatch roomy_buffer plain_args
         (name_only_mapping message_head) ∅ 0 row_ann fresh_run
       = (Ok tt, count_fail (writerow roomy_buffer 1 "failed"
                               "form error: TimeoutException" (with_sess s fresh_run))).
Proof.
  eexists. split; [|
    eapply (form_failure_is_logged never_visible literal_fullmatch roomy_buffer
              plain_args (name_only_mapping message_head) ∅ 0 row_ann fresh_run
              None (TimeoutException "Message: "))].
  2: set_solver. 2: vm_compute; reflexivity. 2: reflexivity.
  2: vm_compute; reflexivity.
  reflexivity.
Defined.

(** X12: when the mapping has no [url] key, every row that reaches the form
    is logged failed with "'url'" and the driver is not called at all. *)
Theorem missing_url_fails_row {B E : Type}
    (drv : Driver B E) (re_fullmatch : string -> string -> res bool)
    (buffer_full : list csv_row -> bool)
    (args : Args.t) (cfg : Mapping) (processed : gset Z) (idx : Z) (row : Row)
    (st : run B E) (err : option string) :
  url (head cfg) = None ->
  row_no_of args idx ∉ processed ->
  validate_row re_fullmatch (to_row_dict row) (fields cfg) = Ok err ->
  err_truthy err = false ->
  process_row drv re_fullmatch buffer_full args cfg processed idx row st
  = (Ok tt, count_fail (writerow buffer_full (row_no_of args idx) "failed" "'url'" st)).
Proof.
  intros Hurl Hnot Hval Herr. unfold process_row.
  destruct (decide (row_no_of args idx ∈ processed)); [contradiction|].
  rewrite Hval, Herr.
  unfold fill_and_submit, fill_form, bind, subscript. rewrite Hurl. simpl.
  destruct st as [[b c] o sc fl]. reflexivity.
Qed.

Lemma missing_url_fails_row_witness :
  process_row tick_page literal_fullmatch roomy_buffer plain_args
    (name_only_mapping no_url_head) ∅ 0 row_ann fresh_run
  = (Ok tt, count_fail (writerow roomy_buffer 1 "failed" "'url'" fresh_run)).
Proof.
  apply (missing_url_fails_row tick_page literal_fullmatch roomy_buffer plain_args
           (name_only_mapping no_url_head) ∅ 0 row_ann fresh_run None).
  - reflexivity.
  - set_solver.
  - vm_compute. reflexivity.
  - reflexivity.
Defined.

(** X13: in a dry run the row is logged success as soon as the form is
    filled: the submit selector and the success check are not read, so a
    mapping without them, or with a success check that cannot be met, still
    succeeds, and the session is the one the fill left. *)
Theorem dry_run_stops_after_fill {B E : Type}
    (drv : Driver B E) (re_fullmatch : string -> string -> res bool)
    (buffer_full : list csv_row -> bool)
    (args : Args.t) (cfg : Mapping) (processed : gset Z) (idx : Z) (row : Row)
    (st : run B E) (err : option string) (s : session B E) :
  Args.dry_run args = true ->
  row_no_of args idx ∉ processed ->
  validate_row re_fullmatch (to_row_dict row) (fields cfg) = Ok err ->
  err_truthy err = false ->
  fill_form drv cfg (to_row_dict row) (sess st) = (Ok tt, s) ->
  process_row drv re_fullmatch buffer_full args cfg processed idx row st
  = (Ok tt, count_success (writerow buffer_full (row_no_of args idx) "success" ""
                             (with_sess s st))).
Proof.
  intros Hdry Hnot Hval Herr Hfill. unfold process_row.
  destruct (decide (row_no_of args idx ∈ processed)); [contradiction|].
  rewrite Hval, Herr. unfold fill_and_submit, bind. rewrite Hfill, Hdry.
  reflexivity.
Qed.

(** The mapping whose success check has no selector fails every submitted
    row; in a dry run the same row is logged success without a click on the
    submit button. *)
Lemma dry_run_stops_after_fill_witness :
  exists s,
    calls s = [CGet "http://form.test/"; CFindElement "#name"; CClear "#name";
               CSendKeys "#name" "Ann"]
    /\ process_row tick_page literal_fullmatch roomy_buffer dry_args
         (name_only_mapping text_only_head) ∅ 0 row_ann fresh_run
       = (Ok tt, count_success (writerow roomy_buffer 1 "success" ""
                                  (with_sess s fresh_run))).
Proof.
  eexists. split; [|
    eapply (dry_run_stops_after_fill tick_page literal_fullmatch roomy_buffer dry_args
              (name_only_mapping text_only_head) ∅ 0 row_ann fresh_run None)].
  2: reflexivity. 2: set_solver. 2: vm_compute; reflexivity. 2: reflexivity.
  2: vm_compute; reflexivity.
  reflexivity.
Defined.

(** ** [load_mapping] and the start of [main] (lines 22-25, 94-123) *)

Lemma load_fields_app raw1 raw2 :
  load_fields (raw1 ++ raw2)
  = res_bind (load_fields raw1) (fun fs1 =>
    res_bind (load_fields raw2) (fun fs2 => Ok (fs1 ++ fs2))).
Proof.
  induction raw1 as [|[k v] raw1 IH]; simpl.
  - destruct (load_fields raw2); reflexivity.
  - destruct (FieldRule.init v) as [rule|e]; simpl; [|reflexivity].
    rewrite IH. destruct (load_fields raw1) as [fs1|e]; simpl; [|reflexivity].
    destruct (load_fields raw2); reflexivity.
Qed.

Lemma load_fields_ok raw fs :
  load_fields raw = Ok fs ->
  Forall2 (fun (kv : string * FieldRule.kwargs) (kr : string * FieldRule.t) =>
             fst kv = fst kr /\ FieldRule.init (snd kv) = Ok (snd kr)) raw fs.
Proof.
  revert fs. induction raw as [|[k v] raw IH]; simpl; intros fs.
  - intros [= <-]. constructor.
  - destruct (FieldRule.init v) as [rule|e] eqn:Hinit; simpl; [|discriminate].
    destruct (load_fields raw) as [rest|e]; simpl; [|discriminate].
    intros [= <-]. constructor; [simpl; auto | now apply IH].
Qed.

(** X14: a mapping that loads keeps its head and gives one rule per entry
    of [fields], under the same column name and in the declared order, each
    rule being the one its keyword arguments construct. *)
Theorem load_mapping_keeps_order (h : MappingHead)
    (raw : list (string * FieldRule.kwargs)) (cfg : Mapping) :
  load_mapping h (Some raw) = Ok cfg ->
  head cfg = h
  /\ map fst (fields cfg) = map fst raw
  /\ Forall2 (fun (kv : string * FieldRule.kwargs) (kr : string * FieldRule.t) =>
                fst kv = fst kr /\ FieldRule.init (snd kv) = Ok (snd kr))
       raw (fields cfg).
Proof.
  unfold load_mapping. destruct (load_fields raw) as [fs|e] eqn:Hfs; simpl; [|discriminate].
  intros [= <-]. simpl. apply load_fields_ok in Hfs.
  split; [reflexivity|]. split; [|exact Hfs].
  induction Hfs as [|kv kr raw fs [Hk _] _ IH]; simpl; [reflexivity|].
  rewrite Hk, IH. reflexivity.
Qed.

Lemma load_mapping_keeps_order_witness :
  exists cfg,
    load_mapping simple_head
      (Some [("email", text_kwargs "#email"); ("name", name_kwargs)]) = Ok cfg
    /\ map fst (fields cfg) = ["email"; "name"].
Proof.
  eexists. split; [reflexivity|].
  apply (load_mapping_keeps_order simple_head
           [("email", text_kwargs "#email"); ("name", name_kwargs)]).
  reflexivity.
Defined.

(** X15: when an entry of the mapping's fields cannot be constructed (an
    undeclared key such as [kind], or no selector) and the entries before it
    can, [main] ends with that TypeError before anything else happens: the
    log is not opened and the browser is not started, whatever the other
    arguments are. *)
Theorem bad_field_entry_aborts_main {B E : Type}
    (drv : Driver B E) (re_fullmatch : string -> string -> res bool)
    (buffer_full : list csv_row -> bool)
    (launch_browser : string -> bool -> res B)
    (args : Args.t) (h : MappingHead)
    (pre post : list (string * FieldRule.kwargs)) (fs : list (string * FieldRule.t))
    (k : string) (v : FieldRule.kwargs) (e : exn)
    (table : list Row) (existing : option (list csv_row)) :
  load_fields pre = Ok fs ->
  FieldRule.init v = Raise e ->
  main drv re_fullmatch buffer_full launch_browser args h
    (Some (pre ++ (k, v) :: post)) table existing
  = {| exit := Raise e; log := None; final := None |}.
Proof.
  intros Hpre Hinit. unfold main, load_mapping.
  rewrite load_fields_app, Hpre. simpl. rewrite Hinit. reflexivity.
Qed.

Lemma bad_field_entry_aborts_main_witness :
  main tick_page literal_fullmatch roomy_buffer chrome_ok plain_args simple_head
    (Some ([("name", name_kwargs)] ++ ("plan", kind_kwargs) :: []))
    [row_ann] None
  = {| exit := Raise (TypeError
                 "FieldRule.__init__() got an unexpected keyword argument 'kind'");
       log := None; final := None |}.
Proof.
  eapply (bad_field_entry_aborts_main tick_page literal_fullmatch roomy_buffer chrome_ok
            plain_args simple_head [("name", name_kwargs)] []); reflexivity.
Defined.

(** X16: when the browser cannot be started (the launch raises an exception
    of the WebDriverException family), [main] returns the exit code 2 without
    processing any row; the log has already been opened and prepared, and
    this path leaves it unclosed. *)
Theorem launch_failure_exits_with_2 {B E : Type}
    (drv : Driver B E) (re_fullmatch : string -> string -> res bool)
    (buffer_full : list csv_row -> bool)
    (launch_browser : string -> bool -> res B)
    (args : Args.t) (h : MappingHead)
    (raw_fields : option (list (string * FieldRule.kwargs)))
    (table : list Row) (existing : option (list csv_row))
    (cfg : Mapping) (processed : gset Z) (e : exn) :
  load_mapping h raw_fields = Ok cfg ->
  load_processed (Args.resume args) existing = Ok processed ->
  launch_browser (match browser h with Some b => b | None => "chrome" end)
    (Args.headless args || match headless h with Some b => b | None => false end)
    = Raise e ->
  is_WebDriverException e = true ->
  main drv re_fullmatch buffer_full launch_browser args h raw_fields table existing
  = {| exit := Ok 2; log := Some (prepare_writer buffer_full existing); final := None |}
  /\ closed (prepare_writer buffer_full existing) = false
  /\ contents (prepare_writer buffer_full existing)
     = match existing with Some rows => rows | None => [header] end.
Proof.
  intros Hload Hproc Hlaunch Hwd. unfold main.
  rewrite Hload, Hproc, Hlaunch, Hwd.
  split; [reflexivity|].
  split; [apply closed_prepare_writer | apply contents_prepare_writer].
Qed.

Lemma launch_failure_exits_with_2_witness :
  main tick_page literal_fullmatch roomy_buffer no_driver plain_args simple_head
    (Some [("name", text_kwargs "#name")]) [row_ann; row_bob] None
  = {| exit := Ok 2;
       log := Some {| disk := []; pending := [header]; closed := false |};
       final := None |}.
Proof.
  refine (proj1 (launch_failure_exits_with_2 tick_page literal_fullmatch roomy_buffer
                   no_driver plain_args simple_head (Some [("name", text_kwargs "#name")])
                   [row_ann; row_bob] None (name_only_mapping simple_head) ∅
                   (WebDriverException "WebDriverException"
                      "Message: unable to obtain driver") _ _ _ _));
    reflexivity.
Defined.



(** ** The log as resume input (lines 102-114, 130-167) *)

Lemma records_as_triples args (recs : list csv_row) (rows : list (Z * Row)) :
  Forall2 (fun rec (ir : Z * Row) =>
             exists status message,
               rec = record_row (row_no_of args (fst ir)) status message)
    recs rows ->
  exists triples : list (Z * string * string),
    recs = map record_line triples
    /\ map (fun t => fst (fst t)) triples
       = map (fun ir => row_no_of args (fst ir)) rows.
Proof.
  induction 1 as [|rec ir recs rows (status & message & ->) _ (triples & -> & Hnos)].
  - exists []. split; reflexivity.
  - exists ((row_no_of args (fst ir), status, message) :: triples).
    simpl. rewrite Hnos. split; reflexivity.
Qed.

Lemma log_of_record_lines triples : log_of triples = header :: map record_line triples.
Proof.
  reflexivity.
Qed.

(** X18: the log of a run that started without a log file and returned 0
    is the header followed by one record per selected row, carrying the row
    numbers in row order; read back by a resumed run it never fails, and the
    resume set is exactly the row numbers whose record has status success. *)
Theorem completed_log_is_resume_input {B E : Type}
    (drv : Driver B E) (re_fullmatch : string -> string -> res bool)
    (buffer_full : list csv_row -> bool)
    (launch_browser : string -> bool -> res B)
    (args : Args.t) (h : MappingHead)
    (raw_fields : option (list (string * FieldRule.kwargs)))
    (table : list Row) (f : out_file) :
  exit (main drv re_fullmatch buffer_full launch_browser args h raw_fields table None)
    = Ok 0 ->
  log (main drv re_fullmatch buffer_full launch_browser args h raw_fields table None)
    = Some f ->
  exists triples : list (Z * string * string),
    disk f = log_of triples
    /\ map (fun t => fst (fst t)) triples = map fst (row_numbers args table)
    /\ exists processed,
         load_processed true (Some (disk f)) = Ok processed
         /\ forall n, n ∈ processed <-> exists m, (n, "success", m) ∈ triples.
Proof.
  unfold main.
  destruct (load_mapping h raw_fields) as [cfg|e]; simpl; [|discriminate].
  destruct (launch_browser _ _) as [b|e].
  2: { destruct (is_WebDriverException e); simpl; discriminate. }
  destruct (run_loop _ _ _ _ _ _ _ _) as [[u|e] st'] eqn:Hrun; simpl; [|discriminate].
  intros _ [= <-].
  destruct (run_loop_out drv re_fullmatch buffer_full args cfg _ _ _ _ _ Hrun)
    as (k & recs & -> & Hrecs & Hall).
  rewrite firstn_all in Hall.
  apply records_as_triples in Hall as (triples & -> & Hnos).
  exists triples.
  assert (Hdisk : disk (close (out st')) = log_of triples).
  { destruct (close_writes_all (out st')) as (-> & _). rewrite Hrecs.
    simpl. rewrite (contents_prepare_writer buffer_full None), log_of_record_lines.
    reflexivity. }
  split; [exact Hdisk|]. split.
  - rewrite Hnos. unfold row_numbers. rewrite !map_map.
    apply map_ext. intros [idx row]. reflexivity.
  - rewrite Hdisk. unfold load_processed. rewrite dict_reader_log.
    destruct (collect_processed_log triples ∅) as (processed & Hrun' & Hmem).
    exists processed. split; [exact Hrun'|].
    intros n. rewrite Hmem. split; [|auto].
    intros [Hin | Hin]; [set_solver | exact Hin].
Qed.

Lemma completed_log_is_resume_input_witness :
  exists triples : list (Z * string * string),
    (disk <$> log first_run) = Some (log_of triples)
    /\ map (fun t => fst (fst t)) triples = [1; 2]
    /\ exists processed,
         load_processed true (disk <$> log first_run) = Ok processed
         /\ forall n, n ∈ processed <-> exists m, (n, "success", m) ∈ triples.
Proof.
  assert (Hlog : log first_run
                 = Some {| disk := log_of [(1, "success", ""); (2, "success", "")];
                           pending := []; closed := true |})
    by (vm_compute; reflexivity).
  destruct (completed_log_is_resume_input tick_page literal_fullmatch roomy_buffer
              chrome_ok plain_args simple_head (Some [("name", text_kwargs "#name")])
              [row_ann; row_bob] _ eq_refl Hlog)
    as (triples & Hdisk & Hnos & processed & Hload & Hmem).
  exists triples. rewrite Hlog. simpl in *.
  split; [now rewrite Hdisk|]. split; [exact Hnos|].
  exists processed. split; [exact Hload | exact Hmem].
Defined.

Lemma dict_of_row_other names row (acc : gmap string (option string)) key :
  ~ In key names ->
  dict_of_row names row acc !! key = acc !! key.
Proof.
  revert row acc. induction names as [|n names IH]; intros row acc Hnot; simpl;
    [reflexivity|].
  assert (Hn : n <> key) by (intros ->; apply Hnot; simpl; auto).
  assert (Hrest : ~ In key names) by (intros H; apply Hnot; simpl; auto).
  destruct row as [|x row]; rewrite IH by exact Hrest;
    apply lookup_insert_ne; exact Hn.
Qed.

Lemma collect_processed_no_status (rs : list (gmap string (option string)))
    (acc : gset Z) :
  Forall (fun r => r !! "status" = None) rs ->
  collect_processed rs acc = Ok acc.
Proof.
  induction 1 as [|r rs Hr _ IH]; simpl; [reflexivity|].
  unfold status_is_success. rewrite Hr. exact IH.
Qed.

(** X19: a log file that exists but is empty when a run starts gets no
    header: the run writes its records only.  Read back by a resumed run,
    such a log takes its first record for the field names, finds no status
    column, and the resume set is empty: no row is skipped. *)
Theorem headerless_log_skips_nothing (buffer_full : list csv_row -> bool)
    (n0 : Z) (status0 message0 : string) (recs : list (Z * string * string)) :
  status0 <> "status" ->
  message0 <> "status" ->
  contents (prepare_writer buffer_full (Some [])) = []
  /\ load_processed true (Some (map record_line ((n0, status0, message0) :: recs)))
     = Ok ∅.
Proof.
  intros Hs Hm. split; [apply contents_prepare_writer|].
  unfold load_processed, dict_reader. cbn [map record_line].
  apply collect_processed_no_status.
  apply Forall_forall. intros r (row & -> & _)%list_elem_of_fmap.
  apply dict_of_row_other. unfold record_row. simpl.
  intros [H | [H | [H | []]]]; [|congruence|congruence].
  pose proof (str_int_chars n0) as Hc. rewrite H in Hc. discriminate.
Qed.

Lemma headerless_log_skips_nothing_witness :
  load_processed true
    (Some (map record_line [(1, "success", ""); (2, "success", "")])) = Ok ∅
  /\ load_processed true (Some (log_of [(1, "success", ""); (2, "success", "")]))
     <> Ok ∅.
Proof.
  split.
  - apply (headerless_log_skips_nothing roomy_buffer 1 "success" ""
             [(2, "success", "")]); discriminate.
  - intros H.
    assert (Hin : (1 : Z) ∈ (∅ : gset Z)); [|set_solver].
    destruct (collect_processed_log [(1, "success", ""); (2, "success", "")] ∅)
      as (processed & Hrun & Hmem).
    unfold load_processed in H. rewrite dict_reader_log, Hrun in H.
    injection H as <-. apply Hmem. right. exists "". apply elem_of_cons. auto.
Defined.

(** ** Row selection and numbering (lines 97-100, 127-128) *)

Lemma iterrows_from_indices k (df : list Row) :
  map fst (iterrows_from k df) = seqZ k (Z.of_nat (length df)).
Proof.
  revert k. induction df as [|row df IH]; intros k; simpl length.
  - simpl. rewrite seqZ_nil by lia. reflexivity.
  - rewrite seqZ_cons by lia. cbn [iterrows_from map fst]. rewrite IH.
    f_equal. f_equal; lia.
Qed.

Lemma length_py_slice {A} lo hi (l : list A) :
  0 <= lo ->
  match hi with Some h => 0 <= h | None => True end ->
  Z.of_nat (length (py_slice lo hi l))
  = Z.max 0 (match hi with
             | Some h => Z.min h (Z.of_nat (length l))
             | None => Z.of_nat (length l)
             end - lo).
Proof.
  intros Hlo Hhi. unfold py_slice, slice_index.
  rewrite length_take, length_drop.
  destruct (Z.ltb_spec lo 0); [lia|].
  destruct hi as [h|]; [destruct (Z.ltb_spec h 0); [lia|]|]; lia.
Qed.

(** X20: without a filter and with [--start] at least 1, the rows of a run
    are numbered consecutively from [start]; [--end] is a 1-based inclusive
    bound, an end of 0 or no end means the end of the table, and the run is
    empty when [start] lies beyond the bound. *)
Theorem row_numbers_are_a_range (args : Args.t) (table : list Row) :
  Args.filter args = None ->
  1 <= Args.start args ->
  match Args.end_ args with Some e => 0 <= e | None => True end ->
  map fst (row_numbers args table)
  = seqZ (Args.start args)
      (Z.max 0 (match Args.end_ args with
                | Some e => if e =? 0 then Z.of_nat (length table)
                            else Z.min e (Z.of_nat (length table))
                | None => Z.of_nat (length table)
                end - Args.start args + 1)).
Proof.
  intros Hf Hstart Hend. unfold row_numbers, iterrows.
  transitivity (map (Z.add (Args.start args))
                  (map fst (iterrows_from 0 (select_rows args table)))).
  { rewrite !map_map. apply map_ext. intros [idx row]. reflexivity. }
  rewrite iterrows_from_indices.
  change (Z.add (Args.start args)
            <$> seqZ 0 (Z.of_nat (length (select_rows args table)))
          = seqZ (Args.start args)
              (Z.max 0 (match Args.end_ args with
                        | Some e => if e =? 0 then Z.of_nat (length table)
                                    else Z.min e (Z.of_nat (length table))
                        | None => Z.of_nat (length table)
                        end - Args.start args + 1))).
  rewrite fmap_add_seqZ, Z.add_0_r. f_equal.
  unfold select_rows. rewrite Hf.
  destruct (Args.end_ args) as [e|]; [destruct (Z.eqb_spec e 0)|];
    rewrite length_py_slice by (simpl; lia); lia.
Qed.

Lemma row_numbers_are_a_range_witness :
  map fst (row_numbers
             {| Args.start := 2; Args.end_ := Some 3; Args.filter := None;
                Args.headless := false; Args.dry_run := false; Args.resume := false;
                Args.timeout := 15 |}
             [row_ann; row_bob; row_cid; row_ann; row_bob])
  = [2; 3].
Proof.
  rewrite (row_numbers_are_a_range
             {| Args.start := 2; Args.end_ := Some 3; Args.filter := None;
                Args.headless := false; Args.dry_run := false; Args.resume := false;
                Args.timeout := 15 |}
             [row_ann; row_bob; row_cid; row_ann; row_bob]);
    [reflexivity | reflexivity | simpl; lia | simpl; lia].
Defined.

(** X21: [--start 0] does not start at the first row: the slice bound
    [start - 1] is -1, which Python counts from the end, so with no end and
    no filter the run consists of the last row of the table alone, and its
    row number is 0. *)
Theorem start_zero_selects_last_row (args : Args.t) (table : list Row) (last : Row) :
  Args.start args = 0 ->
  Args.end_ args = None ->
  Args.filter args = None ->
  row_numbers args (table ++ [last]) = [(0, last)].
Proof.
  intros Hstart Hend Hf.
  unfold row_numbers, select_rows, row_no_of. rewrite Hstart, Hend, Hf.
  unfold py_slice, slice_index.
  change (0 - 1 <? 0) with true. cbv iota.
  rewrite length_app. simpl length.
  replace (Z.to_nat (Z.max (0 - 1 + Z.of_nat (length table + 1)) 0))
    with (length table) by lia.
  rewrite drop_app_length.
  replace (Z.to_nat (Z.of_nat (length table + 1)
                     - Z.max (0 - 1 + Z.of_nat (length table + 1)) 0))
    with 1%nat by lia.
  reflexivity.
Qed.

Lemma start_zero_selects_last_row_witness :
  row_numbers
    {| Args.start := 0; Args.end_ := None; Args.filter := None;
       Args.headless := false; Args.dry_run := false; Args.resume := false;
       Args.timeout := 15 |}
    ([row_ann; row_bob] ++ [row_cid])
  = [(0, row_cid)].
Proof.
  apply (start_zero_selects_last_row
           {| Args.start := 0; Args.end_ := None; Args.filter := None;
              Args.headless := false; Args.dry_run := false; Args.resume := false;
              Args.timeout := 15 |}
           [row_ann; row_bob] row_cid); reflexivity.
Defined.

(** ** Starting the browser (lines 66-78, 118) *)

(** X22: unless the mapping names firefox (in any letter case), [main]
    starts Chrome: a mapping without a browser key and a mapping with any
    other name, supported or not, are treated alike, and no name is an
    error.  Chrome is started headless when the command line or the mapping
    asks for it, and always with --no-sandbox and --disable-dev-shm-usage. *)
Theorem main_starts_chrome_by_default {B E : Type}
    (drv : Driver B E) (re_fullmatch : string -> string -> res bool)
    (buffer_full : list csv_row -> bool)
    (start : launch_request -> res B)
    (args : Args.t) (h : MappingHead)
    (raw_fields : option (list (string * FieldRule.kwargs)))
    (table : list Row) (existing : option (list csv_row)) :
  match browser h with Some b => lower b <> "firefox" | None => True end ->
  main drv re_fullmatch buffer_full (launch_browser start) args h raw_fields table existing
  = main drv re_fullmatch buffer_full
      (fun _ _ =>
         start {| driver_class := Chrome;
                  arguments :=
                    (if Args.headless args
                        || match headless h with Some b => b | None => false end
                     then ["--headless=new"] else [])
                      ++ ["--no-sandbox"; "--disable-dev-shm-usage"] |})
      args h raw_fields table existing.
Proof.
  intros Hname. unfold main.
  destruct (load_mapping h raw_fields) as [cfg|e]; [|reflexivity].
  destruct (load_processed (Args.resume args) existing) as [processed|e]; [|reflexivity].
  assert (Hl : launch_browser start
                 (match browser h with Some b => b | None => "chrome" end)
                 (Args.headless args
                  || match headless h with Some b => b | None => false end)
               = start {| driver_class := Chrome;
                          arguments :=
                            (if Args.headless args
                                || match headless h with Some b => b | None => false end
                             then ["--headless=new"] else [])
                              ++ ["--no-sandbox"; "--disable-dev-shm-usage"] |}).
  { unfold launch_browser. destruct (browser h) as [b|].
    - destruct (String.eqb_spec (lower b) "firefox"); [contradiction | reflexivity].
    - reflexivity. }
  rewrite Hl. reflexivity.
Qed.

Lemma main_starts_chrome_by_default_witness :
  exit (main tick_page literal_fullmatch roomy_buffer (launch_browser chrome_only)
          plain_args edge_head (Some [("name", text_kwargs "#name")]) [row_ann] None)
  = Ok 0.
Proof.
  rewrite (main_starts_chrome_by_default tick_page literal_fullmatch roomy_buffer
             chrome_only plain_args edge_head (Some [("name", text_kwargs "#name")])
             [row_ann] None).
  - vm_compute. reflexivity.
  - simpl. discriminate.
Defined.

(** ** A resumed run over a completed log (lines 102-131) *)

Section SkipFacts.

Context {B E : Type}.
Variable drv : Driver B E.
Variable re_fullmatch : string -> string -> res bool.
Variable buffer_full : list csv_row -> bool.

Lemma run_loop_all_skipped args cfg (processed : gset Z) rows (st : run B E) :
  (forall ir, ir ∈ rows -> row_no_of args (fst ir) ∈ processed) ->
  exists st',
    run_loop drv re_fullmatch buffer_full args cfg processed rows st = (Ok tt, st')
    /\ sess st' = sess st
    /\ successes st' = successes st
    /\ fails st' = fails st
    /\ contents (out st')
       = contents (out st)
           ++ map (fun ir => record_row (row_no_of args (fst ir)) "success"
                               "skipped (resume)") rows.
Proof.
  revert st. induction rows as [|[idx row] rows IH]; intros st Hall; simpl.
  - exists st. rewrite app_nil_r. auto.
  - rewrite process_row_skips by (apply (Hall (idx, row)), elem_of_cons; auto).
    destruct (IH (writerow buffer_full (row_no_of args idx) "success"
                    "skipped (resume)" st)) as (st' & Hrun & Hs & Hsu & Hf & Hc).
    { intros ir Hin. apply Hall, elem_of_cons. auto. }
    exists st'. split; [exact Hrun|]. simpl in *.
    rewrite Hs, Hsu, Hf, Hc, contents_write_row, <- app_assoc. auto.
Qed.

End SkipFacts.

(** X23: rerunning with [--resume] on the log of a run in which every
    selected row has a success record touches no form: the run returns 0, it
    makes no call on the driver but [quit], both counters stay 0, and the log
    grows by one "skipped (resume)" record per row. *)
Theorem resumed_rerun_touches_nothing {B E : Type}
    (drv : Driver B E) (re_fullmatch : string -> string -> res bool)
    (buffer_full : list csv_row -> bool)
    (launch : string -> bool -> res B)
    (args : Args.t) (h : MappingHead)
    (raw_fields : option (list (string * FieldRule.kwargs))) (cfg : Mapping)
    (table : list Row) (triples : list (Z * string * string)) (b : B) :
  Args.resume args = true ->
  load_mapping h raw_fields = Ok cfg ->
  launch (match browser h with Some name => name | None => "chrome" end)
    (Args.headless args || match headless h with Some hl => hl | None => false end)
    = Ok b ->
  (forall n, n ∈ map fst (row_numbers args table) ->
             exists m, (n, "success", m) ∈ triples) ->
  exists st,
    main drv re_fullmatch buffer_full launch args h raw_fields table
      (Some (log_of triples))
    = {| exit := Ok 0; log := Some (out st); final := Some st |}
    /\ calls (sess st) = [CQuit]
    /\ successes st = 0 /\ fails st = 0
    /\ disk (out st)
       = log_of triples
           ++ map (fun n => record_row n "success" "skipped (resume)")
                (map fst (row_numbers args table)).
Proof.
  intros Hresume Hload Hlaunch Hall. unfold main.
  rewrite Hload, Hresume. unfold load_processed. rewrite dict_reader_log.
  destruct (collect_processed_log triples ∅) as (processed & Hrun & Hmem).
  rewrite Hrun, Hlaunch.
  destruct (run_loop_all_skipped drv re_fullmatch buffer_full args cfg processed
              (iterrows (select_rows args table))
              {| sess := {| page := b; calls := [] |};
                 out := prepare_writer buffer_full (Some (log_of triples));
                 successes := 0; fails := 0 |})
    as (st' & Hloop & Hs & Hsu & Hf & Hc).
  { intros [idx row] Hin. apply Hmem. right. apply Hall.
    unfold row_numbers. rewrite map_map.
    apply list_elem_of_fmap. exists (idx, row). split; [reflexivity | exact Hin]. }
  rewrite Hloop. exists (finally drv st'). split; [reflexivity|].
  cbn [sess out successes fails] in Hs, Hsu, Hf, Hc.
  split; [cbn [finally sess calls]; rewrite Hs; reflexivity|].
  split; [exact Hsu|]. split; [exact Hf|].
  change (out (finally drv st')) with (close (out st')).
  destruct (close_writes_all (out st')) as (-> & _).
  rewrite Hc, (contents_prepare_writer buffer_full (Some (log_of triples))).
  f_equal. unfold row_numbers. rewrite !map_map. apply map_ext.
  intros [idx row]. reflexivity.
Qed.

Lemma resumed_rerun_touches_nothing_witness :
  exists st,
    main tick_page literal_fullmatch roomy_buffer chrome_ok rerun_args simple_head
      (Some [("name", text_kwargs "#name")]) [row_ann; row_bob]
      (Some (log_of [(1, "success", ""); (2, "failed", "'url'"); (2, "success", "")]))
    = {| exit := Ok 0; log := Some (out st); final := Some st |}
    /\ calls (sess st) = [CQuit]
    /\ successes st = 0 /\ fails st = 0.
Proof.
  destruct (resumed_rerun_touches_nothing tick_page literal_fullmatch roomy_buffer
              chrome_ok rerun_args simple_head (Some [("name", text_kwargs "#name")])
              (name_only_mapping simple_head) [row_ann; row_bob]
              [(1, "success", ""); (2, "failed", "'url'"); (2, "success", "")]
              (fun _ => false))
    as (st & Hmain & Hcalls & Hs & Hf & _).
  - reflexivity.
  - reflexivity.
  - reflexivity.
  - intros n Hin. exists "".
    assert (Hn : n = 1 \/ n = 2).
    { vm_compute in Hin. apply elem_of_cons in Hin as [-> | Hin]; [auto|].
      apply elem_of_cons in Hin as [-> | Hin]; [auto | inversion Hin]. }
    destruct Hn as [-> | ->]; repeat (apply elem_of_cons; (left; reflexivity) || right).
  - exists st. auto.
Defined.
